(** * cis_oracle.py: the Oracle CIS audit script

    A shallow embedding of [cis_oracle.py]: the check catalog, the audit loop
    over a database session, the Jinja2 report template and the top-level
    script with its effects (terminal, database driver, clock, file system),
    followed by the properties of the audit-and-report pipeline. *)

From Stdlib Require Import ZArith Ascii.
From stdpp Require Import gmap strings list pretty.

(** ** Text helpers *)

(** The two characters that cannot be written inside a literal here. *)
Definition dq : string := String "034"%char EmptyString.
Definition nl : string := String "010"%char EmptyString.

(** [sep.join(parts)] of Python. *)
Fixpoint join (sep : string) (parts : list string) : string :=
  match parts with
  | [] => ""
  | [p] => p
  | p :: rest => p +:+ sep +:+ join sep rest
  end.

(** Concatenation of a list of text chunks. *)
Fixpoint cat (parts : list string) : string :=
  match parts with
  | [] => ""
  | p :: rest => p +:+ cat rest
  end.

(** [doc] contains [s] as a contiguous piece. *)
Definition occurs_in (s doc : string) : Prop :=
  ∃ before after, doc = before +:+ s +:+ after.

(** ** Python values and their string forms *)

(** The values a fetched row can hold, as far as the script looks at them:
    the driver hands back tuples of scalars; the script itself only builds
    strings and tuples.  A [PyStr] holds the UTF-8 bytes of the text. *)
#[warnings="-register-all"] Inductive pyval : Type :=
  | PyNone
  | PyInt (n : Z)
  | PyStr (s : string)
  | PyTuple (vs : list pyval).

Definition is_tuple (v : pyval) : bool :=
  match v with PyTuple _ => true | _ => false end.

(** *** [repr] of a [str]

    CPython picks the double quote when the text has a single quote and no
    double quote, and the single quote otherwise; it escapes the chosen
    quote and the backslash, writes TAB, LF and CR as [\t], [\n], [\r], the
    other control characters and DEL as [\xhh], and copies printable ASCII.
    Bytes from 0x80 on belong to the UTF-8 form of a non-ASCII character;
    they are copied, which is what [repr] does with the printable ones.
    CPython escapes the non-printable ones (U+0085, U+00A0, U+200B, U+2028
    and the like) as [\xhh], [\uhhhh] or [\Uhhhhhhhh]: texts holding
    those are outside this model. *)

Definition squote : ascii := "039"%char.
Definition dquote : ascii := "034"%char.
Definition backslash : ascii := "092"%char.

Fixpoint has_char (c : ascii) (s : string) : bool :=
  match s with
  | EmptyString => false
  | String a rest => if Ascii.eqb a c then true else has_char c rest
  end.

Definition repr_quote (s : string) : ascii :=
  if has_char squote s && negb (has_char dquote s) then dquote else squote.

Definition hexdigit (n : N) : ascii :=
  (if n <? 10 then ascii_of_N (48 + n) else ascii_of_N (87 + n))%N.

Definition repr_char (q c : ascii) : string :=
  let n := N_of_ascii c in
  if Ascii.eqb c q || Ascii.eqb c backslash then String backslash (String c "")
  else if (n =? 9)%N then String backslash "t"
  else if (n =? 10)%N then String backslash "n"
  else if (n =? 13)%N then String backslash "r"
  else if (n <? 32)%N || (n =? 127)%N then
    String backslash
      (String "x" (String (hexdigit (n / 16)) (String (hexdigit (n mod 16)) "")))
  else String c "".

Fixpoint repr_body (q : ascii) (s : string) : string :=
  match s with
  | EmptyString => ""
  | String c rest => repr_char q c +:+ repr_body q rest
  end.

Definition repr_str (s : string) : string :=
  let q := repr_quote s in
  String q (repr_body q s +:+ String q "").

(** *** [repr] of a tuple, from the [repr] of its items *)
Definition tuple_repr (items : list string) : string :=
  match items with
  | [] => "()"
  | [item] => "(" +:+ item +:+ ",)"
  | _ => "(" +:+ join ", " items +:+ ")"
  end.

Fixpoint py_repr (v : pyval) : string :=
  match v with
  | PyNone => "None"
  | PyInt n => pretty n
  | PyStr s => repr_str s
  | PyTuple vs => tuple_repr (map py_repr vs)
  end.

(** [str(v)]: the text itself for a [str], [repr] for the rest. *)
Definition py_str (v : pyval) : string :=
  match v with
  | PyStr s => s
  | _ => py_repr v
  end.

(** The characters HTML gives a meaning to in text, which an escaping
    renderer would replace by entities. *)
Definition html_special (c : ascii) : Prop :=
  c = "<"%char ∨ c = ">"%char ∨ c = "&"%char.

(** [holds t v]: the value [v] sits somewhere inside the tuple [t]. *)
Inductive holds : pyval → pyval → Prop :=
  | holds_item vs v : v ∈ vs → holds (PyTuple vs) v
  | holds_deep vs t v : t ∈ vs → holds t v → holds (PyTuple vs) v.

(** ** The check catalog *)

(** One entry of [cis_checks]: a dict with these six string fields. *)
Record Check := mkCheck {
  c_id : string;
  c_desc : string;
  c_query : string;
  c_risk : string;
  c_fix_type : string;
  c_remediation : string
}.

(** The continuation lines of the triple-quoted queries start with twenty
    spaces; every line but the last ends with a space. *)
Definition indent20 : string := "                    ".

Definition cis_checks : list Check := [
  mkCheck "1.1" "Ensure auditing is enabled"
    "SELECT value FROM v$parameter WHERE name = 'audit_trail'"
    "High" "Quick"
    "Set 'audit_trail=DB,EXTENDED' in init.ora or spfile";
  mkCheck "2.1" "Password complexity enforced"
    ("SELECT profile, resource_name, limit " +:+ nl +:+
     indent20 +:+ "FROM dba_profiles " +:+ nl +:+
     indent20 +:+ "WHERE resource_name = 'PASSWORD_VERIFY_FUNCTION'")
    "Medium" "Planned"
    "Assign strong password functions to user profiles";
  mkCheck "3.1" "DBA role misuse"
    ("SELECT grantee FROM dba_role_privs " +:+ nl +:+
     indent20 +:+ "WHERE granted_role = 'DBA'")
    "High" "Involved"
    "Limit DBA role assignment to only authorized users";
  mkCheck "4.1" "Failed login audit check"
    ("SELECT username, timestamp, returncode " +:+ nl +:+
     indent20 +:+ "FROM dba_audit_session " +:+ nl +:+
     indent20 +:+ "WHERE returncode != 0 AND ROWNUM <= 5")
    "Medium" "Quick"
    "Enable audit for session logon failures";
  mkCheck "5.1" "Check for default user accounts"
    ("SELECT username, account_status " +:+ nl +:+
     indent20 +:+ "FROM dba_users " +:+ nl +:+
     indent20 +:+ "WHERE username IN ('SCOTT','HR','OUTLN')")
    "Low" "Quick"
    "Lock/remove unused default accounts"
].

(** One entry of [results]: the check's fields without the query, and the
    [output] list. *)
Record Result := mkResult {
  r_id : string;
  r_desc : string;
  r_risk : string;
  r_fix_type : string;
  r_remediation : string;
  r_output : list pyval
}.

(** The dict appended to [results] for [check] once [output] is known. *)
Definition result_of (check : Check) (output : list pyval) : Result :=
  mkResult (c_id check) (c_desc check) (c_risk check) (c_fix_type check)
           (c_remediation check) output.

(** The row of [output] built in the [except] branch. *)
Definition error_row (msg : string) : pyval :=
  PyTuple [PyStr ("Error: " +:+ msg)].

(** ** The report template *)

(** The style sheet of the template, one rule per line: selector and
    declarations. *)
Definition style_rules : list (string * string) := [
  ("body", "font-family: Arial; padding: 20px;");
  ("table", "width: 100%; border-collapse: collapse; margin-top: 20px;");
  ("th, td", "padding: 10px; border: 1px solid #ccc; vertical-align: top;");
  ("th", "background-color: #f0f0f0;");
  (".High", "background-color: #f8d7da;");
  (".Medium", "background-color: #fff3cd;");
  (".Low", "background-color: #d4edda;");
  ("pre", "white-space: pre-wrap; background: #f4f4f4; padding: 8px;")
].

Definition style_line (rule : string * string) : string :=
  "        " +:+ rule.1 +:+ " { " +:+ rule.2 +:+ " }" +:+ nl.

(** *** Which rules style a body row

    The class attribute of a row is read by the browser as a list of names
    separated by ASCII whitespace, and a rule [.name] applies to the row
    when [name] is one of them (names are compared as they are: the document
    declares its type, so it is not in quirks mode).  The other rules of the
    sheet select elements by type, none of them [tr]. *)

Definition is_html_space (c : ascii) : bool :=
  let n := N_of_ascii c in
  ((n =? 9) || (n =? 10) || (n =? 12) || (n =? 13) || (n =? 32))%N.

(** The pieces of [s] between whitespace characters, empty ones included. *)
Fixpoint split_spaces (s : string) : list string :=
  match s with
  | EmptyString => [""]
  | String c rest =>
      if is_html_space c then "" :: split_spaces rest
      else match split_spaces rest with
           | piece :: pieces => String c piece :: pieces
           | [] => [String c ""]
           end
  end.

(** The class names of an attribute value. *)
Definition class_tokens (value : string) : list string :=
  List.filter (λ piece, negb (String.eqb piece "")) (split_spaces value).

(** The value read for the class attribute written from [risk]: the text
    itself, as long as it holds no double quote, which would end the value
    early, and no ampersand, which could start a character reference.  For
    other texts the model does not say what the browser reads. *)
Definition class_value (risk : string) : option string :=
  if has_char dquote risk || has_char "&" risk then None else Some risk.

(** [rule] is a class rule for one of [names]. *)
Definition rule_applies (names : list string) (rule : string * string) : bool :=
  existsb (λ name, String.eqb rule.1 ("." +:+ name)) names.

(** The declarations of the rules of the sheet that apply to the row written
    from [risk], in the order of the sheet. *)
Definition row_styles (risk : string) : option (list string) :=
  match class_value risk with
  | Some value =>
      Some (map snd (List.filter (rule_applies (class_tokens value))
                       style_rules))
  | None => None
  end.

(** The template text up to [{{ date }}].  The source string opens with a
    line break. *)
Definition template_head : string :=
  nl +:+
  "<!DOCTYPE html>" +:+ nl +:+
  "<html>" +:+ nl +:+
  "<head>" +:+ nl +:+
  "    <meta charset=" +:+ dq +:+ "UTF-8" +:+ dq +:+ ">" +:+ nl +:+
  "    <title>Oracle CIS Audit Report</title>" +:+ nl +:+
  "    <style>" +:+ nl +:+
  cat (map style_line style_rules) +:+
  "    </style>" +:+ nl +:+
  "</head>" +:+ nl +:+
  "<body>" +:+ nl +:+
  "    <h1>Oracle Database CIS Audit Report</h1>" +:+ nl +:+
  "    <p><strong>Date:</strong> ".

(** From [{{ date }}] to [{% for item in results %}]. *)
Definition template_thead : string :=
  "</p>" +:+ nl +:+
  "    <table>" +:+ nl +:+
  "        <thead>" +:+ nl +:+
  "            <tr>" +:+ nl +:+
  "                <th>Finding ID</th>" +:+ nl +:+
  "                <th>Description</th>" +:+ nl +:+
  "                <th>Risk Rating</th>" +:+ nl +:+
  "                <th>Fix Type</th>" +:+ nl +:+
  "                <th>Remediation</th>" +:+ nl +:+
  "                <th>Output</th>" +:+ nl +:+
  "            </tr>" +:+ nl +:+
  "        </thead>" +:+ nl +:+
  "        <tbody>" +:+ nl +:+
  "        ".

(** From [{% endfor %}] to the end.  Jinja2 drops the single line break that
    ends the source string ([keep_trailing_newline] is off). *)
Definition template_tail : string :=
  nl +:+
  "        </tbody>" +:+ nl +:+
  "    </table>" +:+ nl +:+
  "</body>" +:+ nl +:+
  "</html>".

(** [{{ item.output | join('\n') }}]: without autoescape the filter is
    [sep.join(map(str, value))]. *)
Definition output_cell (item : Result) : string :=
  join nl (map py_str (r_output item)).

(** The opening tag of a body row. *)
Definition tr_open (cls : string) : string :=
  "<tr class=" +:+ dq +:+ cls +:+ dq +:+ ">".

(** One pass through the body of the [for] block.  Blocks are not trimmed,
    so the body starts with the line break after [{% for ... %}] and ends
    with the indentation before [{% endfor %}]. *)
Definition render_item (item : Result) : string :=
  nl +:+
  "            " +:+ tr_open (r_risk item) +:+ nl +:+
  "                <td>" +:+ r_id item +:+ "</td>" +:+ nl +:+
  "                <td>" +:+ r_desc item +:+ "</td>" +:+ nl +:+
  "                <td>" +:+ r_risk item +:+ "</td>" +:+ nl +:+
  "                <td>" +:+ r_fix_type item +:+ "</td>" +:+ nl +:+
  "                <td>" +:+ r_remediation item +:+ "</td>" +:+ nl +:+
  "                <td><pre>" +:+ output_cell item +:+ "</pre></td>" +:+ nl +:+
  "            </tr>" +:+ nl +:+
  "        ".

(** The chunks the [for] block emits, one per item. *)
Definition tbody_rows (results : list Result) : list string :=
  map render_item results.

(** [template.render(date=date, results=results)]. *)
Definition render (date : string) (results : list Result) : string :=
  template_head +:+ date +:+ template_thead +:+
  cat (tbody_rows results) +:+ template_tail.

(** *** Reading the document as text *)

(** [doc] starts with [p]. *)
Fixpoint starts_with (p doc : string) : bool :=
  match p, doc with
  | EmptyString, _ => true
  | String a p', String b doc' => Ascii.eqb a b && starts_with p' doc'
  | String _ _, EmptyString => false
  end.

(** The number of places of [doc] where [p] starts. *)
Fixpoint count_starts (p doc : string) : nat :=
  match doc with
  | EmptyString => 0
  | String _ rest =>
      (if starts_with p doc then 1 else 0) + count_starts p rest
  end.

(** How a body row opens; the header row is a bare [<tr>]. *)
Definition body_row_tag : string := "<tr class=" +:+ dq.

(** A text without [<], and a Result all of whose rendered fields are. *)
Definition plain (s : string) : Prop := has_char "<" s = false.

Definition plain_item (item : Result) : Prop :=
  plain (r_id item) ∧ plain (r_desc item) ∧ plain (r_risk item) ∧
  plain (r_fix_type item) ∧ plain (r_remediation item) ∧
  plain (output_cell item).

(** [s] up to its first [c], and [s] without its first [n] characters. *)
Fixpoint take_until (c : ascii) (s : string) : string :=
  match s with
  | EmptyString => ""
  | String a rest => if Ascii.eqb a c then "" else String a (take_until c rest)
  end.

Fixpoint skip (n : nat) (s : string) : string :=
  match n, s with
  | S n', String _ rest => skip n' rest
  | _, _ => s
  end.

(** The class attribute of every body-row tag of [doc], in document order:
    what stands between the opening of the tag and the next double quote. *)
Fixpoint row_classes (doc : string) : list string :=
  match doc with
  | EmptyString => []
  | String _ rest =>
      if starts_with body_row_tag doc
      then take_until dquote (skip (String.length body_row_tag) doc)
             :: row_classes rest
      else row_classes rest
  end.

(** A Result of plain fields whose risk holds no double quote. *)
Definition tidy_item (item : Result) : Prop :=
  plain_item item ∧ has_char dquote (r_risk item) = false.

(** [s.split(c)] of Python for a one-character separator: the pieces of
    [s] between the occurrences of [c]; the empty text has one empty piece. *)
Fixpoint split_on (c : ascii) (s : string) : list string :=
  match s with
  | EmptyString => [""]
  | String a rest =>
      if Ascii.eqb a c then "" :: split_on c rest
      else match split_on c rest with
           | piece :: pieces => String a piece :: pieces
           | [] => [String a ""]
           end
  end.

(** The line break as a character. *)
Definition LF : ascii := "010"%char.

(** ** The world the script runs in *)

(** The file system, as far as the script touches it: what each path holds. *)
Inductive fs_entry : Type :=
  | Dir
  | File (content : string).

(** A reading of [datetime.datetime.now()]. *)
Record datetime := mkDatetime {
  year : nat; month : nat; day : nat;
  hour : nat; minute : nat; second : nat
}.

(** A decimal field of [strftime], padded with zeros to [width]. *)
Fixpoint zeros (k : nat) : string :=
  match k with O => "" | S k' => "0" +:+ zeros k' end.

Definition zero_padded (width n : nat) : string :=
  let digits := pretty n in
  zeros (width - String.length digits) +:+ digits.

(** [strftime("%Y%m%d_%H%M%S")]. *)
Definition strftime_stamp (t : datetime) : string :=
  zero_padded 4 (year t) +:+ zero_padded 2 (month t) +:+
  zero_padded 2 (day t) +:+ "_" +:+ zero_padded 2 (hour t) +:+
  zero_padded 2 (minute t) +:+ zero_padded 2 (second t).

(** [strftime("%Y-%m-%d %H:%M:%S")]. *)
Definition strftime_date (t : datetime) : string :=
  zero_padded 4 (year t) +:+ "-" +:+ zero_padded 2 (month t) +:+ "-" +:+
  zero_padded 2 (day t) +:+ " " +:+ zero_padded 2 (hour t) +:+ ":" +:+
  zero_padded 2 (minute t) +:+ ":" +:+ zero_padded 2 (second t).

(** What [cx_Oracle.makedsn(host, port, service_name=service)] is built
    from; the driver reads it back in [connect]. *)
Record Dsn := mkDsn {
  dsn_host : string;
  dsn_port : string;
  dsn_service_name : string
}.

(** Exceptions below [Exception]: those of the driver ([cx_Oracle.Error]
    and its subclasses) and all the others.  The script only ever looks at
    [str(e)]. *)
Inductive Exception : Type :=
  | OracleError (msg : string)
  | OtherError (msg : string).

Definition exc_str (e : Exception) : string :=
  match e with OracleError msg | OtherError msg => msg end.

(** What can unwind the script: an [Exception], or the [SystemExit] that
    [exit(code)] raises, which is not an [Exception]. *)
Inductive raised : Type :=
  | Exc (e : Exception)
  | SystemExit (code : Z).

(** Calls made to the driver, in the order they happen. *)
Inductive event : Type :=
  | EvConnect (user password : string) (dsn : Dsn)
  | EvCursor
  | EvExecute (query : string)
  | EvFetchall
  | EvCursorClose
  | EvConnectionClose.

Definition is_execute (ev : event) : bool :=
  match ev with EvExecute _ => true | _ => false end.

Definition is_connection_close (ev : event) : bool :=
  match ev with EvConnectionClose => true | _ => false end.

Inductive outcome (A : Type) : Type :=
  | Ok (a : A)
  | Raise (r : raised).
Arguments Ok {A} a.
Arguments Raise {A} r.

(** ** The database driver *)

(** [conn] is the state of a live session.  [cx_Oracle.connect] returns a
    session or raises [cx_Oracle.Error] with the given text;
    [cursor.execute] and [cursor.fetchall] advance the session and may raise
    any [Exception]; [fetchall] hands back a list of tuples. *)
Record Driver := mkDriver {
  conn : Type;
  db_connect : string → string → Dsn → string + conn;
  cursor_execute : conn → string → conn * option Exception;
  cursor_fetchall : conn → conn * (Exception + list (list pyval))
}.

(** ** The script over a driver *)

Section Script.

Variable drv : Driver.

(** The script is run at a terminal, where [input] and [getpass] read what
    is typed.  [w_stdout] holds what [print] wrote.  Where [input] shows its
    prompt depends on the streams (standard error when standard input and
    output are both terminals, standard output otherwise), so the prompts of
    [input] are kept in a channel of their own, [w_prompts].  [getpass]
    writes to the terminal device, [w_tty]. *)
Record World := mkWorld {
  w_stdin : list string;           (* lines still to be typed *)
  w_stdout : list string;          (* chunks written by print *)
  w_tty : list string;             (* chunks written by getpass *)
  w_clock : nat → datetime;        (* successive readings of the clock *)
  w_ticks : nat;                   (* readings taken so far *)
  w_fs : gmap string fs_entry;
  w_session : option (conn drv);         (* the open connection, if any *)
  w_trace : list event;            (* calls made to the driver so far *)
  w_prompts : list string          (* prompts shown by input *)
}.

Definition set_stdin (l : list string) (w : World) : World :=
  mkWorld l (w_stdout w) (w_tty w) (w_clock w) (w_ticks w) (w_fs w)
          (w_session w) (w_trace w) (w_prompts w).
Definition put_stdout (chunk : string) (w : World) : World :=
  mkWorld (w_stdin w) (w_stdout w ++ [chunk]) (w_tty w) (w_clock w)
          (w_ticks w) (w_fs w) (w_session w) (w_trace w) (w_prompts w).
Definition put_tty (chunk : string) (w : World) : World :=
  mkWorld (w_stdin w) (w_stdout w) (w_tty w ++ [chunk]) (w_clock w)
          (w_ticks w) (w_fs w) (w_session w) (w_trace w) (w_prompts w).
Definition tick (w : World) : World :=
  mkWorld (w_stdin w) (w_stdout w) (w_tty w) (w_clock w) (S (w_ticks w))
          (w_fs w) (w_session w) (w_trace w) (w_prompts w).
Definition set_fs (fs : gmap string fs_entry) (w : World) : World :=
  mkWorld (w_stdin w) (w_stdout w) (w_tty w) (w_clock w) (w_ticks w) fs
          (w_session w) (w_trace w) (w_prompts w).
Definition set_session (s : option (conn drv)) (w : World) : World :=
  mkWorld (w_stdin w) (w_stdout w) (w_tty w) (w_clock w) (w_ticks w)
          (w_fs w) s (w_trace w) (w_prompts w).
Definition log (ev : event) (w : World) : World :=
  mkWorld (w_stdin w) (w_stdout w) (w_tty w) (w_clock w) (w_ticks w)
          (w_fs w) (w_session w) (w_trace w ++ [ev]) (w_prompts w).

Definition put_prompt (chunk : string) (w : World) : World :=
  mkWorld (w_stdin w) (w_stdout w) (w_tty w) (w_clock w) (w_ticks w)
          (w_fs w) (w_session w) (w_trace w) (w_prompts w ++ [chunk]).

(** *** Statements: state passing with exceptions *)

Definition Py (A : Type) : Type := World → outcome A * World.

Definition ret {A} (a : A) : Py A := λ w, (Ok a, w).

Definition bind {A B} (m : Py A) (k : A → Py B) : Py B :=
  λ w, match m w with
       | (Ok a, w') => k a w'
       | (Raise r, w') => (Raise r, w')
       end.

Definition raise {A} (r : raised) : Py A := λ w, (Raise r, w).

Notation "x <- m ;; k" := (bind m (λ x, k))
  (at level 100, m at next level, k at level 200, right associativity).
Notation "m ;; k" := (bind m (λ _, k))
  (at level 100, k at level 200, right associativity).

(** [try: body / except Exception as e: handler]: [SystemExit] passes
    through. *)
Definition try_except {A} (body : Py A) (handler : Exception → Py A) : Py A :=
  λ w, match body w with
       | (Raise (Exc e), w') => handler e w'
       | other => other
       end.

(** [try: body / except cx_Oracle.Error as error: handler]. *)
Definition try_except_oracle {A} (body : Py A) (handler : string → Py A)
  : Py A :=
  λ w, match body w with
       | (Raise (Exc (OracleError msg)), w') => handler msg w'
       | other => other
       end.

(** *** Built-ins and library calls *)

(** [print(text)]. *)
Definition print (text : string) : Py unit :=
  λ w, (Ok tt, put_stdout (text +:+ nl) w).

(** [input(prompt)]: the prompt is shown, then a line is read; at the end
    of the input it raises [EOFError("EOF when reading a line")]. *)
Definition input (prompt : string) : Py string :=
  λ w, let w1 := put_prompt prompt w in
       match w_stdin w1 with
       | line :: rest => (Ok line, set_stdin rest w1)
       | [] => (Raise (Exc (OtherError "EOF when reading a line")), w1)
       end.

(** [getpass.getpass(prompt)]: the prompt goes to the terminal, a line is
    read without echo, then a line break goes to the terminal.  At the end
    of the input it raises a bare [EOFError], whose text is empty, before
    the line break is written. *)
Definition getpass (prompt : string) : Py string :=
  λ w, let w1 := put_tty prompt w in
       match w_stdin w1 with
       | line :: rest => (Ok line, put_tty nl (set_stdin rest w1))
       | [] => (Raise (Exc (OtherError "")), w1)
       end.

(** [exit(code)]. *)
Definition exit {A} (code : Z) : Py A := raise (SystemExit code).

(** [datetime.datetime.now()]. *)
Definition now : Py datetime :=
  λ w, (Ok (w_clock w (w_ticks w)), tick w).

(** [cx_Oracle.connect(user=user, password=password, dsn=dsn)]. *)
Definition connect (user password : string) (dsn : Dsn) : Py unit :=
  λ w, let w1 := log (EvConnect user password dsn) w in
       match db_connect drv user password dsn with
       | inr s => (Ok tt, set_session (Some s) w1)
       | inl msg => (Raise (Exc (OracleError msg)), w1)
       end.

Definition not_connected : Exception := OracleError "not connected".

(** Every call on the connection or the cursor is logged, also one that
    finds the connection closed and raises. *)

(** [connection.cursor()]. *)
Definition cursor : Py unit :=
  λ w, let w1 := log EvCursor w in
       match w_session w with
       | Some _ => (Ok tt, w1)
       | None => (Raise (Exc not_connected), w1)
       end.

(** [cursor.execute(query)]. *)
Definition execute (query : string) : Py unit :=
  λ w, let w1 := log (EvExecute query) w in
       match w_session w with
       | Some s =>
           match cursor_execute drv s query with
           | (s', None) => (Ok tt, set_session (Some s') w1)
           | (s', Some e) => (Raise (Exc e), set_session (Some s') w1)
           end
       | None => (Raise (Exc not_connected), w1)
       end.

(** [cursor.fetchall()]: a list of tuples. *)
Definition fetchall : Py (list pyval) :=
  λ w, let w1 := log EvFetchall w in
       match w_session w with
       | Some s =>
           match cursor_fetchall drv s with
           | (s', inr rows) => (Ok (map PyTuple rows), set_session (Some s') w1)
           | (s', inl e) => (Raise (Exc e), set_session (Some s') w1)
           end
       | None => (Raise (Exc not_connected), w1)
       end.

(** [cursor.close()]. *)
Definition cursor_close : Py unit :=
  λ w, let w1 := log EvCursorClose w in
       match w_session w with
       | Some _ => (Ok tt, w1)
       | None => (Raise (Exc not_connected), w1)
       end.

(** [connection.close()]. *)
Definition connection_close : Py unit :=
  λ w, let w1 := log EvConnectionClose w in
       match w_session w with
       | Some _ => (Ok tt, set_session None w1)
       | None => (Raise (Exc not_connected), w1)
       end.

(** [os.makedirs(path, exist_ok=True)] for a one-component path. *)
Definition makedirs (path : string) : Py unit :=
  λ w, match w_fs w !! path with
       | None => (Ok tt, set_fs (<[path := Dir]> (w_fs w)) w)
       | Some Dir => (Ok tt, w)
       | Some (File _) =>
           (Raise (Exc (OtherError
              ("[Errno 17] File exists: " +:+ repr_str path))), w)
       end.

(** [open(path, "w")]: the file is created or emptied. *)
Definition open_w (path : string) : Py unit :=
  λ w, match w_fs w !! path with
       | Some Dir =>
           (Raise (Exc (OtherError
              ("[Errno 21] Is a directory: " +:+ repr_str path))), w)
       | _ => (Ok tt, set_fs (<[path := File ""]> (w_fs w)) w)
       end.

(** [f.write(data)] on the file opened at [path], flushed when the [with]
    block ends. *)
Definition file_write (path data : string) : Py unit :=
  λ w, let old := match w_fs w !! path with
                  | Some (File content) => content
                  | _ => ""
                  end in
       (Ok tt, set_fs (<[path := File (old +:+ data)]> (w_fs w)) w).

(** *** The audit loop *)

(** The [try] block of the loop body. *)
Definition query_rows (check : Check) : Py (list pyval) :=
  execute (c_query check) ;;
  fetchall.

(** [try: ... except Exception as e: output = [(f"Error: {str(e)}",)]]. *)
Definition check_output (check : Check) : Py (list pyval) :=
  try_except (query_rows check) (λ e, ret [error_row (exc_str e)]).

(** [for check in checks: ...; results.append({...})], started with the
    list [results]. *)
Fixpoint audit_loop (checks : list Check) (results : list Result)
  : Py (list Result) :=
  match checks with
  | [] => ret results
  | check :: rest =>
      output <- check_output check ;;
      audit_loop rest (results ++ [result_of check output])
  end.

(** *** Report generation *)

Definition report_dir : string := "cis_html_reports".

Definition report_path (timestamp : string) : string :=
  report_dir +:+ "/oracle_cis_report_" +:+ timestamp +:+ ".html".

Definition write_report (results : list Result) : Py unit :=
  makedirs report_dir ;;
  t <- now ;;
  let html_report := report_path (strftime_stamp t) in
  open_w html_report ;;
  t' <- now ;;
  file_write html_report (render (strftime_date t') results) ;;
  print ("📄 Report saved to: " +:+ html_report).

(** *** The whole script, over a catalog *)

(** [input(...) or "1521"]: the empty answer is falsy. *)
Definition default_port (answer : string) : string :=
  if bool_decide (answer = "") then "1521" else answer.

Definition script (catalog : list Check) : Py unit :=
  print "🔐 Oracle Database CIS Audit (Python version)" ;;
  host <- input "Enter Oracle Host: " ;;
  port_in <- input "Enter Port [default: 1521]: " ;;
  let port := default_port port_in in
  service <- input "Enter Service Name/SID: " ;;
  user <- input "Enter Read-Only Username: " ;;
  password <- getpass ("Enter password for " +:+ user +:+ ": ") ;;
  let dsn := mkDsn host port service in
  print "🧪 Connecting to Oracle..." ;;
  try_except_oracle (connect user password dsn)
    (λ error, print ("❌ Connection failed: " +:+ error) ;; exit 1) ;;
  print "✅ Connected." ;;
  cursor ;;
  results <- audit_loop catalog [] ;;
  cursor_close ;;
  connection_close ;;
  write_report results.

Definition main : Py unit := script cis_checks.

(** The exit status of the interpreter: 0 when the script runs to its end,
    the code of a [SystemExit], 1 after an uncaught exception. *)
Definition exit_status {A} (o : outcome A) : Z :=
  match o with
  | Ok _ => 0
  | Raise (SystemExit code) => code
  | Raise (Exc _) => 1
  end.

End Script.

Arguments mkWorld {drv}.
Arguments w_stdin {drv}.
Arguments w_stdout {drv}.
Arguments w_tty {drv}.
Arguments w_clock {drv}.
Arguments w_ticks {drv}.
Arguments w_fs {drv}.
Arguments w_session {drv}.
Arguments w_trace {drv}.
Arguments w_prompts {drv}.

(** [w'] differs from [w] at most in the session and the trace. *)
Definition untouched {drv} (w w' : World drv) : Prop :=
  w_stdin w' = w_stdin w ∧ w_stdout w' = w_stdout w ∧ w_tty w' = w_tty w ∧
  w_clock w' = w_clock w ∧ w_ticks w' = w_ticks w ∧ w_fs w' = w_fs w ∧
  w_prompts w' = w_prompts w.

(** The [execute] call the loop makes for [check]. *)
Definition execute_of (check : Check) : event := EvExecute (c_query check).

(** The driver calls the loop itself can make. *)
Definition is_query_call (ev : event) : bool :=
  match ev with EvExecute _ | EvFetchall => true | _ => false end.

(** What the driver says one turn of the loop on the session [s] is: the
    calls it makes, a [fetchall] exactly when the [execute] returned, and
    the session it leaves. *)
Definition calls_of (drv : Driver) (s : conn drv) (check : Check)
  : list event :=
  match cursor_execute drv s (c_query check) with
  | (_, Some _) => [EvExecute (c_query check)]
  | (_, None) => [EvExecute (c_query check); EvFetchall]
  end.

Definition session_after (drv : Driver) (s : conn drv) (check : Check)
  : conn drv :=
  match cursor_execute drv s (c_query check) with
  | (s1, Some _) => s1
  | (s1, None) => fst (cursor_fetchall drv s1)
  end.

(** The calls of the turns over [checks] from the session [s], and the
    session each turn starts on. *)
Fixpoint expected_calls (drv : Driver) (checks : list Check) (s : conn drv)
  : list event :=
  match checks with
  | [] => []
  | check :: rest =>
      calls_of drv s check ++ expected_calls drv rest (session_after drv s check)
  end.

Fixpoint sessions_before (drv : Driver) (checks : list Check) (s : conn drv)
  : list (conn drv) :=
  match checks with
  | [] => []
  | check :: rest => s :: sessions_before drv rest (session_after drv s check)
  end.

(** ** A small driver and world to run the script in *)

(** The session holds the rows of the last statement.  Logging in needs the
    password [secret]; the only statement the database accepts is
    [SELECT 1 FROM DUAL], which yields the row [(1,)]. *)
Definition ora_942 : Exception :=
  OracleError "ORA-00942: table or view does not exist".

Definition demo_driver : Driver := {|
  conn := option (list (list pyval));
  db_connect := λ user password dsn,
    if bool_decide (password = "secret") then inr None
    else inl "ORA-01017: invalid username/password; logon denied";
  cursor_execute := λ s query,
    if bool_decide (query = "SELECT 1 FROM DUAL")
    then (Some [[PyInt 1]], None)
    else (None, Some ora_942);
  cursor_fetchall := λ s,
    match s with
    | Some rows => (None, inr rows)
    | None => (None, inl (OracleError "DPI-1007: not a query"))
    end
|}.

(** A terminal session typing [lines], an empty working directory, a clock
    stuck at one instant. *)
Definition demo_world (lines : list string) (session : option (conn demo_driver))
  : World demo_driver :=
  mkWorld lines [] [] (λ _, mkDatetime 2024 5 17 9 30 5) 0 ∅ session [] [].

Definition dual_check (desc fix_type remediation : string) : Check :=
  mkCheck "1.1" desc "SELECT 1 FROM DUAL" "High" fix_type remediation.

Definition missing_check : Check :=
  mkCheck "9.9" "No such view" "SELECT * FROM missing" "Low" "Quick" "None".

(** The answers of a user who knows the password, and of one who does not. *)
Definition good_answers : list string := ["db1"; ""; "ORCL"; "auditor"; "secret"].
Definition bad_answers : list string := ["db1"; ""; "ORCL"; "auditor"; "guess"].

(** The same empty directory a year later, with a clock that ticks. *)
Definition later_world : World demo_driver :=
  mkWorld [] [] [] (λ n, mkDatetime 2025 5 17 9 30 n) 0 ∅ None [] [].

(** The small world over given files. *)
Definition demo_world_with (fs : gmap string fs_entry) (lines : list string)
    (session : option (conn demo_driver)) : World demo_driver :=
  mkWorld lines [] [] (λ _, mkDatetime 2024 5 17 9 30 5) 0 fs session [] [].

(** A Result of plain fields with two rows, one holding a line break. *)
Definition two_row_result : Result :=
  mkResult "8.8" "Two rows" "Medium" "Quick" "None"
    [PyTuple [PyStr ("a" +:+ nl +:+ "b")]; PyTuple [PyInt 2; PyNone]].

(** A Result whose one fetched text holds the opening of a row. *)
Definition injected_result : Result :=
  mkResult "6.6" "Injected" "Low" "Quick" "None"
    [PyTuple [PyStr ("<tr class=" +:+ dq +:+ "High" +:+ dq +:+ ">")]].

(** A Result whose one row holds a text with markup in it. *)
Definition markup_result : Result :=
  mkResult "7.7" "Markup" "Low" "Quick" "None" [PyTuple [PyStr "<b>&"]].

(** ** Properties of the audit loop *)

Section AuditLoop.

Variable drv : Driver.
Implicit Types (w : World drv) (check : Check) (checks catalog : list Check).
Implicit Types (results : list Result) (output : list pyval).

(** The [try] block either yields tuples or raises an [Exception]; it never
    exits the interpreter. *)
Lemma query_rows_cases check w :
  (∃ output w', query_rows drv check w = (Ok output, w') ∧
                Forall (λ v, is_tuple v = true) output) ∨
  (∃ e w', query_rows drv check w = (Raise (Exc e), w')).
Proof.
  unfold query_rows, bind, execute, fetchall.
  destruct (w_session w) as [s|]; simpl; [|right; eauto].
  destruct (cursor_execute drv s (c_query check)) as [s1 [e|]]; simpl;
    [right; eauto|].
  destruct (cursor_fetchall drv s1) as [s2 [e|rows]]; simpl;
    [right; eauto|left].
  do 2 eexists. split; [reflexivity|].
  apply Forall_fmap, Forall_true. done.
Qed.

(** So the guarded statement always leaves an [output], made of tuples. *)
Lemma check_output_total check w :
  ∃ output w', check_output drv check w = (Ok output, w') ∧
               Forall (λ v, is_tuple v = true) output.
Proof.
  unfold check_output, try_except.
  destruct (query_rows_cases check w)
    as [(out & w' & -> & Hout)|(e & w' & ->)]; simpl; [by eauto|].
  unfold ret. do 2 eexists. split; [reflexivity|]. by repeat constructor.
Qed.

Lemma check_output_raised check w e w' :
  query_rows drv check w = (Raise (Exc e), w') →
  check_output drv check w = (Ok [error_row (exc_str e)], w').
Proof. unfold check_output, try_except. by intros ->. Qed.

Lemma check_output_rows check w output w' :
  query_rows drv check w = (Ok output, w') →
  check_output drv check w = (Ok output, w').
Proof. unfold check_output, try_except. by intros ->. Qed.

(** One turn of the loop. *)
Lemma audit_loop_cons check checks results w output w' :
  check_output drv check w = (Ok output, w') →
  audit_loop drv (check :: checks) results w =
  audit_loop drv checks (results ++ [result_of check output]) w'.
Proof. intros H. simpl. unfold bind. by rewrite H. Qed.

(** The loop runs to its end, keeps what [results] held and appends one dict
    per check, in order; what it appends does not depend on [results]. *)
Lemma audit_loop_total checks : ∀ w,
  ∃ added w',
    (∀ results, audit_loop drv checks results w = (Ok (results ++ added), w')) ∧
    Forall2 (λ check r, ∃ output, r = result_of check output ∧
                                  Forall (λ v, is_tuple v = true) output)
            checks added.
Proof.
  induction checks as [|check checks IH]; intros w.
  - exists [], w. split; [|constructor].
    intros results. simpl. by rewrite app_nil_r.
  - destruct (check_output_total check w) as (out & w1 & Hout & Htup).
    destruct (IH w1) as (added & w' & Hrun & Hall).
    exists (result_of check out :: added), w'. split.
    + intros results.
      rewrite (audit_loop_cons _ _ _ _ _ _ Hout), Hrun.
      by rewrite <- app_assoc.
    + constructor; eauto.
Qed.

(** What the list held at the start only shifts the outcome. *)
Lemma audit_loop_shift checks results w added w' :
  audit_loop drv checks [] w = (Ok added, w') →
  audit_loop drv checks results w = (Ok (results ++ added), w').
Proof.
  destruct (audit_loop_total checks w) as (added' & w'' & Hrun & _).
  rewrite (Hrun []), (Hrun results). simpl. by inversion 1.
Qed.

(** Splitting the catalog splits the run. *)
Lemma audit_loop_app pre post : ∀ results w mid w1,
  audit_loop drv pre results w = (Ok mid, w1) →
  audit_loop drv (pre ++ post) results w = audit_loop drv post mid w1.
Proof.
  induction pre as [|check pre IH]; intros results w mid w1 H.
  - simpl in H. unfold ret in H. inversion H; subst. reflexivity.
  - destruct (check_output_total check w) as (out & w0 & Hout & _).
    rewrite <- app_comm_cons.
    rewrite (audit_loop_cons _ _ _ _ _ _ Hout) in H.
    rewrite (audit_loop_cons _ _ _ _ _ _ Hout). by apply IH.
Qed.

Lemma audit_loop_length checks results w added w' :
  audit_loop drv checks results w = (Ok added, w') →
  length added = length results + length checks.
Proof.
  destruct (audit_loop_total checks w) as (tl & w'' & Hrun & Hall).
  rewrite (Hrun results). inversion 1; subst.
  rewrite length_app. by rewrite (Forall2_length _ _ _ Hall).
Qed.

(** The run over [pre ++ check :: post], once the turn of [check] is known
    to leave [output]. *)
Lemma audit_loop_at pre check post w results1 w1 output w2 :
  audit_loop drv pre [] w = (Ok results1, w1) →
  check_output drv check w1 = (Ok output, w2) →
  ∃ results2 w3,
    audit_loop drv (pre ++ check :: post) [] w =
      (Ok (results1 ++ result_of check output :: results2), w3) ∧
    audit_loop drv post [] w2 = (Ok results2, w3) ∧
    length results1 = length pre ∧
    length results2 = length post.
Proof.
  intros Hpre Hout.
  destruct (audit_loop_total post w2) as (results2 & w3 & Hpost & Hall).
  exists results2, w3. repeat split.
  - rewrite (audit_loop_app _ _ _ _ _ _ Hpre).
    rewrite (audit_loop_cons _ _ _ _ _ _ Hout), Hpost.
    by rewrite <- app_assoc.
  - apply (Hpost []).
  - by apply audit_loop_length in Hpre.
  - symmetry. apply (Forall2_length _ _ _ Hall).
Qed.

(** C1. For every catalog and every state of the world, the audit loop runs
    to its end and leaves exactly one Result per check, in catalog order: the
    i-th Result carries the id, description, risk, fix type and remediation
    of the i-th check, and its output is what the guarded statement of that
    check left when run in the state the first i checks had left, whatever
    each query did. *)
Theorem audit_loop_one_result_per_check catalog w :
  ∃ results w',
    audit_loop drv catalog [] w = (Ok results, w') ∧
    length results = length catalog ∧
    ∀ i check, catalog !! i = Some check →
      ∃ item before w1 w2,
        results !! i = Some item ∧
        r_id item = c_id check ∧ r_desc item = c_desc check ∧
        r_risk item = c_risk check ∧ r_fix_type item = c_fix_type check ∧
        r_remediation item = c_remediation check ∧
        audit_loop drv (take i catalog) [] w = (Ok before, w1) ∧
        check_output drv check w1 = (Ok (r_output item), w2).
Proof.
  destruct (audit_loop_total catalog w) as (results & w' & Hrun & Hall).
  exists results, w'. split; [apply (Hrun [])|]. split.
  - symmetry. apply (Forall2_length _ _ _ Hall).
  - intros i check Hi.
    destruct (audit_loop_total (take i catalog) w)
      as (before & w1 & Hbefore & _).
    destruct (check_output_total check w1) as (out & w2 & Hout & _).
    destruct (audit_loop_at (take i catalog) check (drop (S i) catalog)
                w before w1 out w2 (Hbefore []) Hout)
      as (results2 & w3 & Hwhole & _ & Hlen1 & _).
    rewrite (take_drop_middle catalog i check Hi), (Hrun []) in Hwhole.
    injection Hwhole as Hresults _. simpl in Hresults.
    exists (result_of check out), before, w1, w2.
    assert (results !! i = Some (result_of check out)) as Hitem.
    { rewrite Hresults.
      assert (i = length before) as ->.
      { rewrite Hlen1, length_take. apply lookup_lt_Some in Hi. lia. }
      by apply list_lookup_middle. }
    pose proof (Hbefore []) as Hb. simpl in Hb.
    by split_and!.
Qed.

(** C2, amended. When the guarded statement of a check raises an exception
    [e], the Result stored for that check, at the place of the check in the
    list, has as its output a list with one entry, the one-item tuple
    holding the text "Error: " followed by [str(e)]; it carries the fields
    of the check; the loop then goes on from the state the failure left, and
    every later check still gets its Result. *)
Theorem failing_check_gives_error_row pre check post w results1 w1 e w2 :
  audit_loop drv pre [] w = (Ok results1, w1) →
  query_rows drv check w1 = (Raise (Exc e), w2) →
  ∃ item results2 w3,
    audit_loop drv (pre ++ check :: post) [] w =
      (Ok (results1 ++ item :: results2), w3) ∧
    (results1 ++ item :: results2) !! length pre = Some item ∧
    r_output item = [PyTuple [PyStr ("Error: " +:+ exc_str e)]] ∧
    r_id item = c_id check ∧ r_desc item = c_desc check ∧
    r_risk item = c_risk check ∧ r_fix_type item = c_fix_type check ∧
    r_remediation item = c_remediation check ∧
    audit_loop drv post [] w2 = (Ok results2, w3) ∧
    length results1 = length pre ∧
    length results2 = length post.
Proof.
  intros Hpre Hraise.
  apply check_output_raised in Hraise.
  destruct (audit_loop_at _ _ post _ _ _ _ _ Hpre Hraise)
    as (results2 & w3 & Hrun & Hpost & Hl1 & Hl2).
  exists (result_of check [error_row (exc_str e)]), results2, w3.
  split_and!; try done.
  rewrite <- Hl1. by apply list_lookup_middle.
Qed.

(** C3. When [execute] and [fetchall] both return for a check, the Result
    stored for that check, at the place of the check in the list, has as its
    output the list of rows [fetchall] returned: the same tuples in the same
    order, nothing added, dropped or changed. *)
Theorem successful_check_keeps_rows pre check post w results1 w1 s s1 s2 rows :
  audit_loop drv pre [] w = (Ok results1, w1) →
  w_session w1 = Some s →
  cursor_execute drv s (c_query check) = (s1, None) →
  cursor_fetchall drv s1 = (s2, inr rows) →
  ∃ item results2 w3,
    audit_loop drv (pre ++ check :: post) [] w =
      (Ok (results1 ++ item :: results2), w3) ∧
    (results1 ++ item :: results2) !! length pre = Some item ∧
    r_output item = map PyTuple rows ∧
    r_id item = c_id check ∧
    length results1 = length pre ∧
    length results2 = length post.
Proof.
  intros Hpre Hs Hexec Hfetch.
  assert (∃ w2, query_rows drv check w1 = (Ok (map PyTuple rows), w2))
    as [w2 Hrows].
  { unfold query_rows, bind, execute, fetchall.
    rewrite Hs, Hexec. simpl. rewrite Hfetch. eauto. }
  apply check_output_rows in Hrows.
  destruct (audit_loop_at _ _ post _ _ _ _ _ Hpre Hrows)
    as (results2 & w3 & Hrun & _ & Hl1 & Hl2).
  exists (result_of check (map PyTuple rows)), results2, w3.
  split_and!; try done.
  rewrite <- Hl1. by apply list_lookup_middle.
Qed.

End AuditLoop.

(** ** Properties of the rendered text *)

Section Text.

Implicit Types (s t doc : string) (parts : list string).

Lemma append_nil_l s : "" +:+ s = s.
Proof. reflexivity. Qed.

Lemma append_cons c s t : String c s +:+ t = String c (s +:+ t).
Proof. reflexivity. Qed.

Lemma append_nil_r s : s +:+ "" = s.
Proof.
  induction s as [|c s IH]; [done|]. by rewrite append_cons, IH.
Qed.

Lemma append_assoc s t u : (s +:+ t) +:+ u = s +:+ t +:+ u.
Proof.
  induction s as [|c s IH]; [done|]. by rewrite !append_cons, IH.
Qed.

Lemma occurs_in_refl s : occurs_in s s.
Proof. exists "", "". by rewrite append_nil_l, append_nil_r. Qed.

Lemma occurs_in_wrap s doc before after :
  occurs_in s doc → occurs_in s (before +:+ doc +:+ after).
Proof.
  intros (a & b & ->). exists (before +:+ a), (b +:+ after).
  by rewrite !append_assoc.
Qed.

Lemma occurs_in_prefixed s doc before :
  occurs_in s doc → occurs_in s (before +:+ doc).
Proof.
  intros H. rewrite <- (append_nil_r doc). by apply occurs_in_wrap.
Qed.

Lemma occurs_in_suffixed s doc after :
  occurs_in s doc → occurs_in s (doc +:+ after).
Proof. intros H. by apply (occurs_in_wrap s doc "" after) in H. Qed.

Lemma occurs_in_trans s t doc :
  occurs_in s t → occurs_in t doc → occurs_in s doc.
Proof. intros Hs (a & b & ->). by apply occurs_in_wrap. Qed.

Lemma cat_occurs s parts : s ∈ parts → occurs_in s (cat parts).
Proof.
  induction 1 as [s parts|s t parts _ IH]; simpl.
  - apply occurs_in_suffixed, occurs_in_refl.
  - by apply occurs_in_prefixed.
Qed.

Lemma join_cons sep s parts :
  join sep (s :: parts) =
  match parts with [] => s | _ => s +:+ sep +:+ join sep parts end.
Proof. by destruct parts. Qed.

Lemma join_occurs sep s parts : s ∈ parts → occurs_in s (join sep parts).
Proof.
  induction 1 as [s parts|s t parts Hin IH]; rewrite join_cons.
  - destruct parts; [apply occurs_in_refl|].
    apply occurs_in_suffixed, occurs_in_refl.
  - destruct parts; [by apply elem_of_nil in Hin|].
    by apply occurs_in_prefixed, occurs_in_prefixed.
Qed.

Lemma tuple_repr_occurs s items : s ∈ items → occurs_in s (tuple_repr items).
Proof.
  intros H. destruct items as [|a [|b items]]; simpl.
  - by apply elem_of_nil in H.
  - apply list_elem_of_singleton in H as ->.
    apply (occurs_in_wrap a a "(" ",)"), occurs_in_refl.
  - apply (occurs_in_wrap s _ "(" ")").
    by apply (join_occurs ", " s (a :: b :: items)).
Qed.

(** The [repr] of a value inside a tuple is a piece of the [repr] of the
    tuple. *)
Lemma py_repr_holds (tup v : pyval) :
  holds tup v → occurs_in (py_repr v) (py_repr tup).
Proof.
  induction 1 as [vs v Hin|vs tup v Hin _ IH]; simpl.
  - apply tuple_repr_occurs. by apply list_elem_of_fmap_2.
  - apply (occurs_in_trans _ (py_repr tup)); [done|].
    apply tuple_repr_occurs. by apply (list_elem_of_fmap_2 py_repr).
Qed.

Lemma repr_body_app q s t :
  repr_body q (s +:+ t) = repr_body q s +:+ repr_body q t.
Proof.
  induction s as [|c s IH]; simpl; [done|].
  by rewrite IH, append_assoc.
Qed.

Lemma repr_char_html_special s c :
  html_special c → repr_char (repr_quote s) c = String c "".
Proof.
  intros [-> | [-> | ->]]; unfold repr_quote;
    destruct (has_char squote s && negb (has_char dquote s));
    reflexivity.
Qed.

Lemma render_item_holds_cell (item : Result) :
  occurs_in (output_cell item) (render_item item).
Proof.
  unfold render_item.
  do 25 apply occurs_in_prefixed.
  apply occurs_in_suffixed, occurs_in_refl.
Qed.

Lemma render_holds_item date (results : list Result) item :
  item ∈ results → occurs_in (render_item item) (render date results).
Proof.
  intros Hin. unfold render.
  do 3 apply occurs_in_prefixed. apply occurs_in_suffixed.
  apply cat_occurs. unfold tbody_rows. by apply list_elem_of_fmap_2.
Qed.

(** A rule that is not the class rule of any of [names] does not apply. *)
Lemma rule_applies_none names (rule : string * string) :
  Forall (λ name, rule.1 ≠ "." +:+ name) names →
  rule_applies names rule = false.
Proof.
  unfold rule_applies. induction 1 as [|name names Hname _ IH]; [done|].
  cbn [existsb]. rewrite IH, orb_false_r.
  by apply String.eqb_neq.
Qed.

Lemma row_styles_other risk :
  class_value risk = Some risk →
  Forall (λ name, name ≠ "High" ∧ name ≠ "Medium" ∧ name ≠ "Low")
         (class_tokens risk) →
  row_styles risk = Some [].
Proof.
  intros Hvalue Hnames. unfold row_styles. rewrite Hvalue. f_equal.
  unfold style_rules. cbn [List.filter].
  rewrite !rule_applies_none; [done|..];
    (eapply Forall_impl; [exact Hnames|]);
    intros name (Hh & Hm & Hl); cbn [fst];
    change ("." +:+ name) with (String "." name);
    intros E; inversion E; congruence.
Qed.

(** *** The body rows counted in the text *)

Lemma count_starts_plain s rest :
  plain s →
  count_starts body_row_tag (s +:+ rest) = count_starts body_row_tag rest.
Proof.
  unfold plain. induction s as [|c s IH]; [done|].
  cbn [has_char]. destruct (Ascii.eqb c "<") eqn:E; [done|]. intros H.
  rewrite append_cons. cbn [count_starts]. rewrite (IH H).
  assert (starts_with body_row_tag (String c (s +:+ rest)) = false) as ->;
    [|done].
  change body_row_tag with (String "<" ("tr class=" +:+ dq)).
  cbn [starts_with]. by rewrite Ascii.eqb_sym, E.
Qed.

(** Move the count past the chunk in front: a piece of the template, which
    holds a known number of row tags, or a plain field. *)
Ltac skip_text :=
  match goal with
  | |- context [count_starts body_row_tag (?chunk +:+ ?rest)] =>
      first
        [ change (count_starts body_row_tag (chunk +:+ rest))
            with (count_starts body_row_tag rest)
        | change (count_starts body_row_tag (chunk +:+ rest))
            with (S (count_starts body_row_tag rest))
        | rewrite (count_starts_plain chunk rest) by assumption ]
  end.

Lemma count_starts_item (item : Result) rest :
  plain_item item →
  count_starts body_row_tag (render_item item +:+ rest) =
  S (count_starts body_row_tag rest).
Proof.
  intros (Hid & Hdesc & Hrisk & Hfix & Hrem & Hout).
  unfold render_item, tr_open. rewrite !append_assoc.
  repeat skip_text. reflexivity.
Qed.

Lemma count_starts_rows (results : list Result) rest :
  Forall plain_item results →
  count_starts body_row_tag (cat (tbody_rows results) +:+ rest) =
  length results + count_starts body_row_tag rest.
Proof.
  induction 1 as [|item results Hitem _ IH]; [done|].
  cbn [tbody_rows map cat]. rewrite append_assoc.
  rewrite (count_starts_item item _ Hitem). fold (tbody_rows results).
  by rewrite IH.
Qed.

(** Read as text, the document of N Results whose fields hold no [<] has
    exactly N places where a body row opens. *)
Lemma count_body_rows date (results : list Result) :
  plain date → Forall plain_item results →
  count_starts body_row_tag (render date results) = length results.
Proof.
  intros Hdate Hall. unfold render.
  do 3 skip_text.
  rewrite (count_starts_rows _ _ Hall).
  change (count_starts body_row_tag template_tail) with 0. lia.
Qed.

(** *** The class attributes of the body rows read in the text *)

Lemma row_classes_plain s rest :
  plain s → row_classes (s +:+ rest) = row_classes rest.
Proof.
  unfold plain. induction s as [|c s IH]; [done|].
  cbn [has_char]. destruct (Ascii.eqb c "<") eqn:E; [done|]. intros H.
  rewrite append_cons. cbn [row_classes]. rewrite (IH H).
  assert (starts_with body_row_tag (String c (s +:+ rest)) = false) as ->;
    [|done].
  change body_row_tag with (String "<" ("tr class=" +:+ dq)).
  cbn [starts_with]. by rewrite Ascii.eqb_sym, E.
Qed.

Lemma row_classes_tag rest :
  row_classes ("<tr class=" +:+ dq +:+ rest) =
  take_until dquote rest :: row_classes rest.
Proof. reflexivity. Qed.

Lemma take_until_quote s rest :
  has_char dquote s = false → take_until dquote (s +:+ dq +:+ rest) = s.
Proof.
  induction s as [|c s IH]; [done|].
  cbn [has_char]. destruct (Ascii.eqb c dquote) eqn:E; [done|]. intros H.
  rewrite append_cons. cbn [take_until]. by rewrite E, (IH H).
Qed.

Ltac skip_plain_text :=
  match goal with
  | |- context [row_classes (?chunk +:+ ?rest)] =>
      first
        [ change (row_classes (chunk +:+ rest)) with (row_classes rest)
        | rewrite (row_classes_plain chunk rest) by assumption ]
  end.

Lemma row_classes_item (item : Result) rest :
  tidy_item item →
  row_classes (render_item item +:+ rest) = r_risk item :: row_classes rest.
Proof.
  intros ((Hid & Hdesc & Hrisk & Hfix & Hrem & Hout) & Hquote).
  unfold render_item, tr_open. rewrite !append_assoc.
  do 2 skip_plain_text.
  rewrite row_classes_tag, (take_until_quote _ _ Hquote).
  f_equal. repeat skip_plain_text. reflexivity.
Qed.

Lemma row_classes_rows (results : list Result) rest :
  Forall tidy_item results →
  row_classes (cat (tbody_rows results) +:+ rest) =
  map r_risk results ++ row_classes rest.
Proof.
  induction 1 as [|item results Hitem _ IH]; [done|].
  cbn [tbody_rows map cat]. rewrite append_assoc.
  rewrite (row_classes_item item _ Hitem). fold (tbody_rows results).
  by rewrite IH.
Qed.

Lemma row_classes_render date (results : list Result) :
  plain date → Forall tidy_item results →
  row_classes (render date results) = map r_risk results.
Proof.
  intros Hdate Hall. unfold render.
  do 3 skip_plain_text.
  rewrite (row_classes_rows _ _ Hall).
  change (row_classes template_tail) with (@nil string).
  by rewrite app_nil_r.
Qed.

(** C4, amended. For N Results whose date and rendered fields hold no [<]
    and whose risk texts hold no double quote, the document, read as text,
    has exactly N body-row tags, in the order of the Results, and the class
    attribute of the i-th is the i-th risk text as it is.  The rows of risk
    High, Medium and Low are styled each by one rule of its own, with three
    different backgrounds; a row whose risk text holds no double quote and
    no ampersand, and none of whose class names is High, Medium or Low, is
    styled by no rule. *)
Theorem report_rows_follow_results date (results : list Result) :
  plain date →
  Forall tidy_item results →
  row_classes (render date results) = map r_risk results ∧
  count_starts body_row_tag (render date results) = length results ∧
  (∃ high medium low,
     row_styles "High" = Some [high] ∧ row_styles "Medium" = Some [medium] ∧
     row_styles "Low" = Some [low] ∧
     high ≠ medium ∧ high ≠ low ∧ medium ≠ low) ∧
  (∀ risk,
     class_value risk = Some risk →
     Forall (λ name, name ≠ "High" ∧ name ≠ "Medium" ∧ name ≠ "Low")
            (class_tokens risk) →
     row_styles risk = Some []).
Proof.
  intros Hdate Hall. split_and!.
  - by apply row_classes_render.
  - apply count_body_rows; [done|].
    eapply Forall_impl; [exact Hall|]. by intros item [Hplain _].
  - do 3 eexists. repeat split; try reflexivity; discriminate.
  - apply row_styles_other.
Qed.

(** C9. A text fetched from the database reaches the document through
    [repr] only: where it has a character that HTML reads as markup, the
    document has that very character at that place, between the [repr] of
    what comes before it and of what comes after it, not an entity. *)
Theorem row_text_is_not_escaped date (results : list Result) item tup s
    before c after :
  item ∈ results →
  tup ∈ r_output item →
  holds tup (PyStr s) →
  s = before +:+ String c after →
  html_special c →
  occurs_in
    (String (repr_quote s)
       (repr_body (repr_quote s) before +:+
        String c (repr_body (repr_quote s) after +:+
                  String (repr_quote s) "")))
    (render date results).
Proof.
  intros Hitem Htup Hholds Hs Hc.
  apply (occurs_in_trans _ (render_item item));
    [|by apply render_holds_item].
  apply (occurs_in_trans _ (output_cell item));
    [|apply render_item_holds_cell].
  apply (occurs_in_trans _ (py_str tup)).
  - assert (py_str tup = py_repr tup) as -> by (by destruct Hholds).
    apply py_repr_holds in Hholds. simpl in Hholds. unfold repr_str in Hholds.
    pose proof (repr_char_html_special s c Hc) as Hq.
    subst s. set (q := repr_quote _) in *.
    rewrite repr_body_app in Hholds.
    change (repr_body q (String c after))
      with (repr_char q c +:+ repr_body q after) in Hholds.
    by rewrite Hq, !append_assoc in Hholds.
  - unfold output_cell. apply join_occurs. by apply list_elem_of_fmap_2.
Qed.

End Text.

(** ** Properties of a run of the script *)

Section Run.

Variable drv : Driver.
Implicit Types (w : World drv) (check : Check) (checks catalog : list Check).
Implicit Types (results : list Result) (evs : list event).

Lemma untouched_refl w : untouched w w.
Proof. by repeat split. Qed.

Lemma untouched_trans w1 w2 w3 :
  untouched w1 w2 → untouched w2 w3 → untouched w1 w3.
Proof.
  unfold untouched. intros (?&?&?&?&?&?&?) (?&?&?&?&?&?&?).
  repeat split; congruence.
Qed.

(** One turn of the loop on an open session: one [execute], then at most
    one [fetchall]; the session stays open and nothing else moves. *)
Lemma check_output_frame check w s :
  w_session w = Some s →
  ∃ output w' s' fetched,
    check_output drv check w = (Ok output, w') ∧
    w_session w' = Some s' ∧
    w_trace w' = w_trace w ++ execute_of check :: fetched ∧
    (fetched = [] ∨ fetched = [EvFetchall]) ∧
    untouched w w'.
Proof.
  intros Hs.
  unfold check_output, try_except, query_rows, bind, execute, fetchall.
  rewrite Hs.
  destruct (cursor_execute drv s (c_query check)) as [s1 [e|]]; simpl.
  - exists [error_row (exc_str e)]. do 2 eexists. exists [].
    split; [reflexivity|]. simpl. repeat split; eauto.
  - destruct (cursor_fetchall drv s1) as [s2 [e|rows]]; simpl;
      do 3 eexists; exists [EvFetchall];
      (split; [reflexivity|]); simpl;
      rewrite <- app_assoc; repeat split; eauto.
Qed.

(** The whole loop on an open session: the [execute] calls are those of the
    catalog, in order; nothing is closed; nothing but the session and the
    trace moves. *)
Lemma audit_loop_frame checks : ∀ w s,
  w_session w = Some s →
  ∃ added w' s' evs,
    (∀ results, audit_loop drv checks results w = (Ok (results ++ added), w')) ∧
    length added = length checks ∧
    w_session w' = Some s' ∧
    w_trace w' = w_trace w ++ evs ∧
    List.filter is_execute evs = map execute_of checks ∧
    List.filter is_connection_close evs = [] ∧
    untouched w w' ∧
    Forall (λ ev, is_query_call ev = true) evs.
Proof.
  induction checks as [|check checks IH]; intros w s Hs.
  - exists [], w, s, [].
    split_and!; try done; try apply untouched_refl;
      try (by rewrite app_nil_r).
    intros results. simpl. by rewrite app_nil_r.
  - destruct (check_output_frame check w s Hs)
      as (out & w1 & s1 & fetched & Hout & Hs1 & Htr1 & Hf & Hun1).
    destruct (IH w1 s1 Hs1)
      as (added & w' & s' & evs & Hrun & Hlen & Hs' & Htr & Hex & Hcl & Hun
          & Hq).
    exists (result_of check out :: added), w', s',
           (execute_of check :: fetched ++ evs).
    split_and!; [| | | | | | |
      constructor; [done|apply Forall_app; split; [|done];
                    by destruct Hf as [-> | ->]; repeat constructor]].
    + intros results.
      rewrite (audit_loop_cons _ _ _ _ _ _ _ Hout), Hrun.
      by rewrite <- app_assoc.
    + simpl. by rewrite Hlen.
    + done.
    + rewrite Htr, Htr1, <- app_assoc. reflexivity.
    + simpl. rewrite List.filter_app, Hex.
      by destruct Hf as [-> | ->].
    + simpl. rewrite List.filter_app, Hcl.
      by destruct Hf as [-> | ->].
    + by apply (untouched_trans w w1 w').
Qed.

(** Writing the report makes no driver call and leaves the session alone. *)
Lemma write_report_frame results w o w' :
  write_report drv results w = (o, w') →
  w_trace w' = w_trace w ∧ w_session w' = w_session w.
Proof.
  unfold write_report, bind, makedirs, now, open_w, file_write, print.
  destruct (w_fs w !! report_dir) as [[|content]|]; simpl;
    try (by intros [= <- <-]);
    match goal with
    | |- context [?fs !! report_path ?ts] =>
        destruct (fs !! report_path ts) as [[|c]|]
    end; simpl; by intros [= <- <-].
Qed.

Lemma report_path_not_dir ts : report_path ts ≠ report_dir.
Proof.
  unfold report_path. intros E.
  rewrite <- (append_nil_r report_dir) in E at 2.
  apply String.app_inj in E. discriminate E.
Qed.

(** When the report is written, the file named after the first reading of
    the clock holds the rendering dated by the second. *)
Lemma write_report_content results w w' :
  write_report drv results w = (Ok tt, w') →
  w_fs w' !! report_path (strftime_stamp (w_clock w (w_ticks w))) =
    Some (File (render (strftime_date (w_clock w (S (w_ticks w)))) results)).
Proof.
  unfold write_report, bind, makedirs, now, open_w, file_write, print.
  destruct (w_fs w !! report_dir) as [[|content]|]; simpl;
    try (by intros [=]);
    match goal with
    | |- context [?fs !! report_path ?ts] =>
        destruct (fs !! report_path ts) as [[|c]|]
    end; simpl; intros [= <-]; simpl;
    by rewrite !lookup_insert_eq.
Qed.

(** It is written unless the directory name is taken by a file or the report
    name by a directory. *)
Lemma write_report_ok results w :
  (∀ content, w_fs w !! report_dir ≠ Some (File content)) →
  w_fs w !! report_path (strftime_stamp (w_clock w (w_ticks w))) ≠ Some Dir →
  ∃ w', write_report drv results w = (Ok tt, w').
Proof.
  intros Hdir Hpath.
  unfold write_report, bind, makedirs, now, open_w, file_write, print.
  destruct (w_fs w !! report_dir) as [[|content]|] eqn:E; simpl.
  - destruct (w_fs w !! report_path _) as [[|c]|]; simpl; by eauto.
  - by destruct (Hdir content).
  - rewrite lookup_insert_ne by (symmetry; apply report_path_not_dir).
    destruct (w_fs w !! report_path _) as [[|c]|]; simpl; by eauto.
Qed.

(** The script up to the report, when five answers are typed and the
    connection opens: the loop has run over the whole catalog, the cursor
    and the connection were closed after it, and the files are as they
    were. *)
Lemma script_connected catalog w host port_in service user password rest s :
  w_stdin w = host :: port_in :: service :: user :: password :: rest →
  db_connect drv user password (mkDsn host (default_port port_in) service)
    = inr s →
  ∃ results w2 evs,
    script drv catalog w = write_report drv results w2 ∧
    length results = length catalog ∧
    w_trace w2 =
      w_trace w ++
      [EvConnect user password (mkDsn host (default_port port_in) service);
       EvCursor] ++ evs ++ [EvCursorClose; EvConnectionClose] ∧
    List.filter is_execute evs = map execute_of catalog ∧
    List.filter is_connection_close evs = [] ∧
    w_fs w2 = w_fs w ∧ w_clock w2 = w_clock w ∧ w_ticks w2 = w_ticks w ∧
    w_session w2 = None ∧
    Forall (λ ev, is_query_call ev = true) evs.
Proof.
  intros Hin Hconn.
  destruct w as [stdin out tty clock ticks fs sess trace].
  simpl in Hin. subst stdin.
  unfold script, bind, print, input, getpass, try_except_oracle, connect.
  simpl. rewrite Hconn. simpl.
  match goal with
  | |- context [audit_loop drv catalog [] ?w1] =>
      destruct (audit_loop_frame catalog w1 s eq_refl)
        as (results & w2 & s' & evs & Hrun & Hlen & Hs' & Htr & Hex & Hcl & Hun
            & Hq);
      rewrite (Hrun [])
  end.
  simpl. unfold cursor_close, connection_close. rewrite Hs'. simpl. rewrite Hs'.
  destruct Hun as (_ & _ & _ & Hclock & Hticks & Hfs & _).
  destruct w2 as [stdin2 out2 tty2 clock2 ticks2 fs2 sess2 trace2].
  simpl in *. subst.
  eexists results, _, evs. split; [reflexivity|]. simpl.
  split_and!; try done.
  by rewrite <- !app_assoc.
Qed.


(** C6. With the five answers typed: if the connection attempt fails, the
    script prints the failure and raises [SystemExit(1)], so the exit status
    is 1; [connect] was called once and nothing else was asked of the
    driver; the files are as they were.  If the connection opens and neither
    the directory name nor the report name is in the way, the script runs to
    its end, the exit status is 0 and the report is on disk. *)
Theorem exit_status_of_script catalog w host port_in service user password rest :
  w_stdin w = host :: port_in :: service :: user :: password :: rest →
  (∀ msg,
     db_connect drv user password (mkDsn host (default_port port_in) service)
       = inl msg →
     ∃ w',
       script drv catalog w = (Raise (SystemExit 1), w') ∧
       exit_status (script drv catalog w).1 = 1%Z ∧
       w_fs w' = w_fs w ∧
       w_trace w' =
         w_trace w ++
         [EvConnect user password
            (mkDsn host (default_port port_in) service)] ∧
       last (w_stdout w') = Some (("❌ Connection failed: " +:+ msg) +:+ nl)) ∧
  (∀ s,
     db_connect drv user password (mkDsn host (default_port port_in) service)
       = inr s →
     (∀ content, w_fs w !! report_dir ≠ Some (File content)) →
     w_fs w !! report_path (strftime_stamp (w_clock w (w_ticks w)))
       ≠ Some Dir →
     ∃ w',
       script drv catalog w = (Ok tt, w') ∧
       exit_status (script drv catalog w).1 = 0%Z ∧
       ∃ results,
         length results = length catalog ∧
         w_fs w' !! report_path (strftime_stamp (w_clock w (w_ticks w))) =
           Some (File (render (strftime_date (w_clock w (S (w_ticks w))))
                         results))).
Proof.
  intros Hin. split.
  - intros msg Hconn.
    destruct w as [stdin out tty clock ticks fs sess trace].
    simpl in Hin. subst stdin.
    unfold script, bind, print, input, getpass, try_except_oracle, connect,
      exit, raise.
    simpl. rewrite Hconn. simpl.
    eexists. split; [reflexivity|]. simpl. split_and!; try done.
    by rewrite last_snoc.
  - intros s Hconn Hdir Hpath.
    destruct (script_connected catalog w _ _ _ _ _ _ s Hin Hconn)
      as (results & w2 & evs & Hscript & Hlen & _ & _ & _ & Hfs & Hcl & Hti
          & _).
    rewrite Hscript.
    destruct (write_report_ok results w2) as [w' Hw'].
    { by rewrite Hfs. }
    { by rewrite Hfs, Hcl, Hti. }
    exists w'. rewrite Hw'. split_and!; try done.
    exists results. split; [done|].
    rewrite <- Hcl, <- Hti. by apply write_report_content.
Qed.

(** C7. With the five answers typed and the connection open, the calls on
    the connection and its cursor are, in this order: connect, cursor, the
    calls of the loop, the close of the cursor, the close of the connection,
    and nothing after that, calls that would fail included.  The calls of
    the loop are [execute] and [fetchall] calls only and hold the [execute]
    of every check of the catalog, in order, whatever each query did.  After
    the one close the connection is closed, and what is left of the script,
    the report step, runs and ends with the connection closed. *)
Theorem connection_closed_once_after_loop catalog w host port_in service user
    password rest s :
  w_stdin w = host :: port_in :: service :: user :: password :: rest →
  db_connect drv user password (mkDsn host (default_port port_in) service)
    = inr s →
  ∃ evs results w2,
    script drv catalog w = write_report drv results w2 ∧
    w_session w2 = None ∧
    w_trace w2 =
      w_trace w ++
      [EvConnect user password (mkDsn host (default_port port_in) service);
       EvCursor] ++ evs ++ [EvCursorClose; EvConnectionClose] ∧
    w_session (script drv catalog w).2 = None ∧
    w_trace (script drv catalog w).2 =
      w_trace w ++
      [EvConnect user password (mkDsn host (default_port port_in) service);
       EvCursor] ++ evs ++ [EvCursorClose; EvConnectionClose] ∧
    Forall (λ ev, is_query_call ev = true) evs ∧
    List.filter is_execute evs = map execute_of catalog ∧
    List.filter is_connection_close evs = [] ∧
    length
      (List.filter is_connection_close
         ([EvConnect user password
             (mkDsn host (default_port port_in) service);
           EvCursor] ++ evs ++ [EvCursorClose; EvConnectionClose])) = 1.
Proof.
  intros Hin Hconn.
  destruct (script_connected catalog w _ _ _ _ _ _ s Hin Hconn)
    as (results & w2 & evs & Hscript & _ & Htr & Hex & Hcl & _ & _ & _ & Hs
        & Hq).
  exists evs, results, w2. rewrite Hscript.
  destruct (write_report drv results w2) as [o w'] eqn:Hw.
  apply write_report_frame in Hw as [Hw Hsess]. simpl. rewrite Hw, Hsess.
  split_and!; try done.
  simpl. by rewrite List.filter_app, Hcl.
Qed.

(** C8. The report is a function of the Results and the date text alone.
    Two runs of the report step over the same Results, in any two states of
    the world, write the rendering of those Results dated by their own
    second reading of the clock; the two files agree on everything around
    the date, and are the same bytes when the date texts are the same. *)
Theorem report_bytes_fixed_by_results_and_date results w1 w1' w2 w2' :
  write_report drv results w1 = (Ok tt, w1') →
  write_report drv results w2 = (Ok tt, w2') →
  ∃ before after content1 content2,
    w_fs w1' !! report_path (strftime_stamp (w_clock w1 (w_ticks w1)))
      = Some (File content1) ∧
    w_fs w2' !! report_path (strftime_stamp (w_clock w2 (w_ticks w2)))
      = Some (File content2) ∧
    content1 = render (strftime_date (w_clock w1 (S (w_ticks w1)))) results ∧
    content2 = render (strftime_date (w_clock w2 (S (w_ticks w2)))) results ∧
    (∀ date, render date results = before +:+ date +:+ after) ∧
    (strftime_date (w_clock w1 (S (w_ticks w1))) =
     strftime_date (w_clock w2 (S (w_ticks w2))) → content1 = content2).
Proof.
  intros H1 H2.
  exists template_head,
         (template_thead +:+ cat (tbody_rows results) +:+ template_tail).
  do 2 eexists. split_and!.
  - by apply write_report_content.
  - by apply write_report_content.
  - reflexivity.
  - reflexivity.
  - reflexivity.
  - by intros ->.
Qed.

(** C10. Every entry of every output is a tuple: the loop only ever stores
    the tuples [fetchall] returned or, after an exception, the one-item
    tuple around the error text; the output cell of such a Result shows the
    [str] of that tuple, the [repr] of the text between [(] and [,)]. *)
Theorem output_entries_are_tuples catalog w :
  (∃ results w',
     audit_loop drv catalog [] w = (Ok results, w') ∧
     ∀ item v, item ∈ results → v ∈ r_output item → is_tuple v = true) ∧
  (∀ check w1 e w2,
     query_rows drv check w1 = (Raise (Exc e), w2) →
     check_output drv check w1
       = (Ok [PyTuple [PyStr ("Error: " +:+ exc_str e)]], w2) ∧
     output_cell (result_of check [PyTuple [PyStr ("Error: " +:+ exc_str e)]])
       = "(" +:+ repr_str ("Error: " +:+ exc_str e) +:+ ",)").
Proof.
  split.
  - destruct (audit_loop_total drv catalog w) as (results & w' & Hrun & Hall).
    exists results, w'. split; [apply (Hrun [])|].
    intros item v Hitem Hv.
    apply list_elem_of_lookup in Hitem as [i Hi].
    destruct (Forall2_lookup_r _ _ _ _ _ Hall Hi)
      as (check & _ & out & -> & Htup).
    rewrite Forall_forall in Htup. by apply Htup.
  - intros check w1 e w2 Hraise. split; [|reflexivity].
    by apply check_output_raised.
Qed.

End Run.

(** ** The theorems at work on the small driver *)

(** Two checks, the first of which fails: two Results, the second from the
    second check, with the row that check fetched. *)
Lemma audit_loop_one_result_per_check_witness :
  ∃ results w',
    audit_loop demo_driver [missing_check; dual_check "a" "b" "c"] []
      (demo_world [] (Some None)) = (Ok results, w') ∧
    length results = 2 ∧
    ∃ item before w1 w2,
      results !! 1 = Some item ∧
      r_id item = "1.1" ∧ r_desc item = "a" ∧ r_risk item = "High" ∧
      r_fix_type item = "b" ∧ r_remediation item = "c" ∧
      audit_loop demo_driver (take 1 [missing_check; dual_check "a" "b" "c"])
        [] (demo_world [] (Some None)) = (Ok before, w1) ∧
      check_output demo_driver (dual_check "a" "b" "c") w1
        = (Ok (r_output item), w2).
Proof.
  destruct (audit_loop_one_result_per_check demo_driver
              [missing_check; dual_check "a" "b" "c"]
              (demo_world [] (Some None)))
    as (results & w' & Hrun & Hlen & Hat).
  exists results, w'. split; [exact Hrun|]. split; [exact Hlen|].
  apply (Hat 1 (dual_check "a" "b" "c")). reflexivity.
Defined.

(** C2 as worded does not hold: the one entry of the output of a failed
    check is not the error text but a tuple around it. *)
Lemma error_entry_is_not_the_bare_text :
  query_rows demo_driver missing_check (demo_world [] (Some None))
    = (Raise (Exc ora_942),
       set_session demo_driver (Some None)
         (log demo_driver (EvExecute "SELECT * FROM missing")
            (demo_world [] (Some None)))) ∧
  ∃ item w',
    audit_loop demo_driver [missing_check] [] (demo_world [] (Some None))
      = (Ok [item], w') ∧
    r_output item ≠ [PyStr ("Error: " +:+ exc_str ora_942)].
Proof.
  split; [reflexivity|].
  do 2 eexists. split; [reflexivity|]. discriminate.
Qed.

(** The failing check first, then one that succeeds. *)
Lemma failing_check_gives_error_row_witness :
  audit_loop demo_driver [] [] (demo_world [] (Some None))
    = (Ok [], demo_world [] (Some None)) ∧
  query_rows demo_driver missing_check (demo_world [] (Some None))
    = (Raise (Exc ora_942),
       set_session demo_driver (Some None)
         (log demo_driver (EvExecute "SELECT * FROM missing")
            (demo_world [] (Some None)))) ∧
  ∃ item results2 w3,
    audit_loop demo_driver ([] ++ missing_check :: [dual_check "a" "b" "c"]) []
      (demo_world [] (Some None)) = (Ok ([] ++ item :: results2), w3) ∧
    ([] ++ item :: results2) !! length ([] : list Check) = Some item ∧
    r_output item = [PyTuple [PyStr ("Error: " +:+ exc_str ora_942)]] ∧
    r_id item = c_id missing_check ∧ r_desc item = c_desc missing_check ∧
    r_risk item = c_risk missing_check ∧
    r_fix_type item = c_fix_type missing_check ∧
    r_remediation item = c_remediation missing_check ∧
    audit_loop demo_driver [dual_check "a" "b" "c"] []
      (set_session demo_driver (Some None)
         (log demo_driver (EvExecute "SELECT * FROM missing")
            (demo_world [] (Some None)))) = (Ok results2, w3) ∧
    length ([] : list Result) = length ([] : list Check) ∧
    length results2 = length [dual_check "a" "b" "c"].
Proof.
  split; [reflexivity|]. split; [reflexivity|].
  apply (failing_check_gives_error_row demo_driver [] missing_check
           [dual_check "a" "b" "c"] (demo_world [] (Some None)) []
           (demo_world [] (Some None)) ora_942
           (set_session demo_driver (Some None)
              (log demo_driver (EvExecute "SELECT * FROM missing")
                 (demo_world [] (Some None)))));
    reflexivity.
Defined.

(** The check that succeeds first, then one that fails. *)
Lemma successful_check_keeps_rows_witness :
  audit_loop demo_driver [] [] (demo_world [] (Some None))
    = (Ok [], demo_world [] (Some None)) ∧
  w_session (demo_world [] (Some None)) = Some None ∧
  cursor_execute demo_driver None "SELECT 1 FROM DUAL"
    = (Some [[PyInt 1]], None) ∧
  cursor_fetchall demo_driver (Some [[PyInt 1]]) = (None, inr [[PyInt 1]]) ∧
  ∃ item results2 w3,
    audit_loop demo_driver ([] ++ dual_check "a" "b" "c" :: [missing_check]) []
      (demo_world [] (Some None)) = (Ok ([] ++ item :: results2), w3) ∧
    ([] ++ item :: results2) !! length ([] : list Check) = Some item ∧
    r_output item = map PyTuple [[PyInt 1]] ∧
    r_id item = c_id (dual_check "a" "b" "c") ∧
    length ([] : list Result) = length ([] : list Check) ∧
    length results2 = length [missing_check].
Proof.
  split; [reflexivity|]. split; [reflexivity|].
  split; [reflexivity|]. split; [reflexivity|].
  apply (successful_check_keeps_rows demo_driver [] (dual_check "a" "b" "c")
           [missing_check] (demo_world [] (Some None)) []
           (demo_world [] (Some None)) None (Some [[PyInt 1]]) None
           [[PyInt 1]]);
    reflexivity.
Defined.

(** C4 as worded does not hold.  A fetched text that holds the opening of
    a row adds a row tag to the document of one Result, and with it a class
    attribute that is no risk; and the risk text [High Low], which is none
    of High, Medium and Low, is styled by the rules of both. *)
Lemma report_rows_can_be_injected :
  length [injected_result] = 1 ∧
  count_starts body_row_tag (render "2024-05-17 09:30:05" [injected_result])
    = 2 ∧
  row_classes (render "2024-05-17 09:30:05" [injected_result])
    = ["Low"; "High"] ∧
  "High Low" ≠ "High" ∧ "High Low" ≠ "Medium" ∧ "High Low" ≠ "Low" ∧
  row_styles "High Low"
    = Some ["background-color: #f8d7da;"; "background-color: #d4edda;"].
Proof.
  split; [reflexivity|].
  split; [vm_compute; reflexivity|].
  split; [vm_compute; reflexivity|].
  split; [discriminate|]. split; [discriminate|]. split; [discriminate|].
  vm_compute. reflexivity.
Qed.

(** Two Results of plain fields and risk Medium, and a class the style
    sheet does not know. *)
Lemma report_rows_follow_results_witness :
  plain "2024-05-17 09:30:05" ∧
  Forall tidy_item [two_row_result; two_row_result] ∧
  row_classes (render "2024-05-17 09:30:05" [two_row_result; two_row_result])
    = ["Medium"; "Medium"] ∧
  count_starts body_row_tag
    (render "2024-05-17 09:30:05" [two_row_result; two_row_result]) = 2 ∧
  class_value "Critical" = Some "Critical" ∧
  Forall (λ name, name ≠ "High" ∧ name ≠ "Medium" ∧ name ≠ "Low")
         (class_tokens "Critical") ∧
  row_styles "Critical" = Some [].
Proof.
  assert (plain "2024-05-17 09:30:05") as Hdate by reflexivity.
  assert (Forall tidy_item [two_row_result; two_row_result]) as Hall.
  { repeat constructor. }
  assert (Forall (λ name, name ≠ "High" ∧ name ≠ "Medium" ∧ name ≠ "Low")
                 (class_tokens "Critical")) as Hnames.
  { repeat constructor; discriminate. }
  destruct (report_rows_follow_results "2024-05-17 09:30:05"
              [two_row_result; two_row_result] Hdate Hall)
    as (Hclasses & Hcount & _ & Hother).
  split; [exact Hdate|]. split; [exact Hall|].
  split; [exact Hclasses|]. split; [exact Hcount|].
  split; [reflexivity|]. split; [exact Hnames|].
  exact (Hother "Critical" eq_refl Hnames).
Defined.



(** A wrong password, then the right one, over the real catalog. *)
Lemma exit_status_of_script_witness :
  (w_stdin (demo_world bad_answers None)
     = "db1" :: "" :: "ORCL" :: "auditor" :: "guess" :: [] ∧
   db_connect demo_driver "auditor" "guess"
     (mkDsn "db1" (default_port "") "ORCL")
     = inl "ORA-01017: invalid username/password; logon denied" ∧
   ∃ w',
     script demo_driver cis_checks (demo_world bad_answers None)
       = (Raise (SystemExit 1), w') ∧
     exit_status (script demo_driver cis_checks
                    (demo_world bad_answers None)).1 = 1%Z ∧
     w_fs w' = w_fs (demo_world bad_answers None) ∧
     w_trace w' =
       w_trace (demo_world bad_answers None) ++
       [EvConnect "auditor" "guess" (mkDsn "db1" (default_port "") "ORCL")] ∧
     last (w_stdout w') =
       Some (("❌ Connection failed: " +:+
              "ORA-01017: invalid username/password; logon denied") +:+ nl)) ∧
  (w_stdin (demo_world good_answers None)
     = "db1" :: "" :: "ORCL" :: "auditor" :: "secret" :: [] ∧
   db_connect demo_driver "auditor" "secret"
     (mkDsn "db1" (default_port "") "ORCL") = inr None ∧
   (∀ content,
      w_fs (demo_world good_answers None) !! report_dir
        ≠ Some (File content)) ∧
   w_fs (demo_world good_answers None)
     !! report_path "20240517_093005" ≠ Some Dir ∧
   ∃ w',
     script demo_driver cis_checks (demo_world good_answers None)
       = (Ok tt, w') ∧
     exit_status (script demo_driver cis_checks
                    (demo_world good_answers None)).1 = 0%Z ∧
     ∃ results,
       length results = length cis_checks ∧
       w_fs w' !! report_path "20240517_093005" =
         Some (File (render "2024-05-17 09:30:05" results))).
Proof.
  split.
  - split; [reflexivity|]. split; [reflexivity|].
    apply (proj1 (exit_status_of_script demo_driver cis_checks
                    (demo_world bad_answers None)
                    "db1" "" "ORCL" "auditor" "guess" [] eq_refl)
             "ORA-01017: invalid username/password; logon denied").
    reflexivity.
  - split; [reflexivity|]. split; [reflexivity|].
    split; [intros content; discriminate|]. split; [discriminate|].
    apply (proj2 (exit_status_of_script demo_driver cis_checks
                    (demo_world good_answers None)
                    "db1" "" "ORCL" "auditor" "secret" [] eq_refl)
             None).
    + reflexivity.
    + intros content. discriminate.
    + discriminate.
Defined.

(** A connected run over a failing and a succeeding check. *)
Lemma connection_closed_once_after_loop_witness :
  w_stdin (demo_world good_answers None)
    = "db1" :: "" :: "ORCL" :: "auditor" :: "secret" :: [] ∧
  db_connect demo_driver "auditor" "secret"
    (mkDsn "db1" (default_port "") "ORCL") = inr None ∧
  ∃ evs results w2,
    script demo_driver [missing_check; dual_check "a" "b" "c"]
      (demo_world good_answers None) = write_report demo_driver results w2 ∧
    w_session w2 = None ∧
    w_trace w2 =
      w_trace (demo_world good_answers None) ++
      [EvConnect "auditor" "secret" (mkDsn "db1" (default_port "") "ORCL");
       EvCursor] ++ evs ++ [EvCursorClose; EvConnectionClose] ∧
    w_session (script demo_driver [missing_check; dual_check "a" "b" "c"]
                 (demo_world good_answers None)).2 = None ∧
    w_trace (script demo_driver [missing_check; dual_check "a" "b" "c"]
               (demo_world good_answers None)).2 =
      w_trace (demo_world good_answers None) ++
      [EvConnect "auditor" "secret" (mkDsn "db1" (default_port "") "ORCL");
       EvCursor] ++ evs ++ [EvCursorClose; EvConnectionClose] ∧
    Forall (λ ev, is_query_call ev = true) evs ∧
    List.filter is_execute evs
      = map execute_of [missing_check; dual_check "a" "b" "c"] ∧
    List.filter is_connection_close evs = [] ∧
    length
      (List.filter is_connection_close
         ([EvConnect "auditor" "secret"
             (mkDsn "db1" (default_port "") "ORCL");
           EvCursor] ++ evs ++ [EvCursorClose; EvConnectionClose])) = 1.
Proof.
  split; [reflexivity|]. split; [reflexivity|].
  apply (connection_closed_once_after_loop demo_driver
           [missing_check; dual_check "a" "b" "c"]
           (demo_world good_answers None)
           "db1" "" "ORCL" "auditor" "secret" [] None);
    reflexivity.
Defined.

(** The same Results written at two different times. *)
Lemma report_bytes_fixed_by_results_and_date_witness :
  write_report demo_driver [markup_result] (demo_world [] None)
    = (Ok tt, (write_report demo_driver [markup_result]
                 (demo_world [] None)).2) ∧
  write_report demo_driver [markup_result] later_world
    = (Ok tt, (write_report demo_driver [markup_result] later_world).2) ∧
  ∃ before after content1 content2,
    w_fs (write_report demo_driver [markup_result] (demo_world [] None)).2
      !! report_path "20240517_093005" = Some (File content1) ∧
    w_fs (write_report demo_driver [markup_result] later_world).2
      !! report_path "20250517_093000" = Some (File content2) ∧
    content1 = render "2024-05-17 09:30:05" [markup_result] ∧
    content2 = render "2025-05-17 09:30:01" [markup_result] ∧
    (∀ date, render date [markup_result] = before +:+ date +:+ after) ∧
    ("2024-05-17 09:30:05" = "2025-05-17 09:30:01" → content1 = content2).
Proof.
  split; [reflexivity|]. split; [reflexivity|].
  apply (report_bytes_fixed_by_results_and_date demo_driver [markup_result]
           (demo_world [] None)
           (write_report demo_driver [markup_result] (demo_world [] None)).2
           later_world
           (write_report demo_driver [markup_result] later_world).2);
    reflexivity.
Defined.

(** The ampersand of a fetched text, in the document as it is. *)
Lemma row_text_is_not_escaped_witness :
  markup_result ∈ [markup_result] ∧
  PyTuple [PyStr "<b>&"] ∈ r_output markup_result ∧
  holds (PyTuple [PyStr "<b>&"]) (PyStr "<b>&") ∧
  "<b>&" = "<b>" +:+ String "&" "" ∧
  html_special "&" ∧
  occurs_in "'<b>&'" (render "2024-05-17 09:30:05" [markup_result]).
Proof.
  assert (markup_result ∈ [markup_result]) as Hitem by apply list_elem_of_here.
  assert (PyTuple [PyStr "<b>&"] ∈ r_output markup_result) as Htup
    by apply list_elem_of_here.
  assert (holds (PyTuple [PyStr "<b>&"]) (PyStr "<b>&")) as Hholds
    by apply holds_item, list_elem_of_here.
  assert (html_special "&") as Hc by (right; right; reflexivity).
  split; [exact Hitem|]. split; [exact Htup|]. split; [exact Hholds|].
  split; [reflexivity|]. split; [exact Hc|].
  exact (row_text_is_not_escaped "2024-05-17 09:30:05" [markup_result]
           markup_result (PyTuple [PyStr "<b>&"]) "<b>&" "<b>" "&" ""
           Hitem Htup Hholds eq_refl Hc).
Defined.

(** The cell of a failed check shows a tuple. *)
Lemma output_entries_are_tuples_witness :
  query_rows demo_driver missing_check (demo_world [] (Some None))
    = (Raise (Exc ora_942),
       set_session demo_driver (Some None)
         (log demo_driver (EvExecute "SELECT * FROM missing")
            (demo_world [] (Some None)))) ∧
  check_output demo_driver missing_check (demo_world [] (Some None))
    = (Ok [PyTuple [PyStr "Error: ORA-00942: table or view does not exist"]],
       set_session demo_driver (Some None)
         (log demo_driver (EvExecute "SELECT * FROM missing")
            (demo_world [] (Some None)))) ∧
  output_cell
    (result_of missing_check
       [PyTuple [PyStr "Error: ORA-00942: table or view does not exist"]])
    = "('Error: ORA-00942: table or view does not exist',)".
Proof.
  split; [reflexivity|].
  apply (proj2 (output_entries_are_tuples demo_driver [missing_check]
                  (demo_world [] (Some None)))
           missing_check (demo_world [] (Some None)) ora_942
           (set_session demo_driver (Some None)
              (log demo_driver (EvExecute "SELECT * FROM missing")
                 (demo_world [] (Some None))))).
  reflexivity.
Defined.

(** ** More on the text of the output cell *)

Section Lines.

Implicit Types (s t : string) (parts : list string).

Lemma has_char_app c s t :
  has_char c (s +:+ t) = has_char c s || has_char c t.
Proof.
  induction s as [|a s IH]; [done|].
  rewrite append_cons. cbn [has_char]. by destruct (Ascii.eqb a c).
Qed.

(** Decimal numerals hold digits only. *)
Lemma pretty_N_go_one_line x : ∀ s,
  has_char LF s = false → has_char LF (pretty_N_go x s) = false.
Proof.
  induction (N.lt_wf_0 x) as [x _ IH]; intros s Hs.
  assert (x = 0 ∨ 0 < x)%N as [->|Hpos] by lia.
  - by rewrite pretty_N_go_0.
  - rewrite pretty_N_go_step by done. apply IH.
    + by apply N.div_lt.
    + cbn [has_char]. rewrite Hs.
      unfold pretty_N_char. by repeat case_match.
Qed.

Lemma pretty_Z_one_line (n : Z) : has_char LF (pretty n) = false.
Proof.
  assert (∀ x : N, has_char LF (pretty x) = false) as HN.
  { intros x. unfold pretty, pretty_N. case_decide; [done|].
    by apply pretty_N_go_one_line. }
  destruct n as [|x|x]; [done|apply (HN (N.pos x))|].
  change (pretty (Z.neg x)) with ("-" +:+ pretty (N.pos x)).
  rewrite has_char_app, (HN (N.pos x)). done.
Qed.

(** [repr] writes a line break as a backslash and an [n]. *)
Lemma repr_char_one_line s c :
  has_char LF (repr_char (repr_quote s) c) = false.
Proof.
  unfold repr_quote.
  destruct (has_char squote s && negb (has_char dquote s));
    destruct c as [[] [] [] [] [] [] [] []]; reflexivity.
Qed.

Lemma repr_str_one_line s : has_char LF (repr_str s) = false.
Proof.
  unfold repr_str.
  assert (has_char LF (String (repr_quote s) "") = false) as Hq.
  { unfold repr_quote.
    by destruct (has_char squote s && negb (has_char dquote s)). }
  change (String (repr_quote s) (?body +:+ ?q))
    with (String (repr_quote s) "" +:+ body +:+ q).
  rewrite !has_char_app, Hq. simpl.
  assert (∀ t, has_char LF (repr_body (repr_quote s) t) = false) as Hbody.
  { induction t as [|c t IH]; [done|].
    cbn [repr_body]. by rewrite has_char_app, repr_char_one_line, IH. }
  by rewrite Hbody.
Qed.

Lemma join_one_line sep parts :
  has_char LF sep = false →
  Forall (λ p, has_char LF p = false) parts →
  has_char LF (join sep parts) = false.
Proof.
  intros Hsep. induction 1 as [|p parts Hp _ IH]; [done|].
  rewrite join_cons. destruct parts; [done|].
  by rewrite !has_char_app, Hp, Hsep, IH.
Qed.

Lemma tuple_repr_one_line parts :
  Forall (λ p, has_char LF p = false) parts →
  has_char LF (tuple_repr parts) = false.
Proof.
  intros Hall. destruct parts as [|a [|b parts]]; [done|..].
  - apply Forall_cons_1 in Hall as [Ha _]. cbn [tuple_repr].
    by rewrite !has_char_app, Ha.
  - cbn [tuple_repr]. rewrite !has_char_app.
    by rewrite (join_one_line ", " _ eq_refl Hall).
Qed.

(** The [repr] of a value is one line, whatever the texts inside hold. *)
Lemma py_repr_one_line : ∀ v : pyval, has_char LF (py_repr v) = false.
Proof.
  fix IH 1. intros [|n|s|vs].
  - reflexivity.
  - apply pretty_Z_one_line.
  - apply repr_str_one_line.
  - cbn [py_repr]. apply tuple_repr_one_line.
    induction vs as [|v vs IHvs]; constructor; [apply IH|apply IHvs].
Qed.

Lemma split_on_whole c s : has_char c s = false → split_on c s = [s].
Proof.
  induction s as [|a s IH]; [done|].
  cbn [has_char split_on]. destruct (Ascii.eqb a c); [done|].
  intros H. by rewrite (IH H).
Qed.

Lemma split_on_first c s t :
  has_char c s = false →
  split_on c (s +:+ String c t) = s :: split_on c t.
Proof.
  induction s as [|a s IH].
  - intros _. rewrite append_nil_l. cbn [split_on].
    by rewrite Ascii.eqb_refl.
  - cbn [has_char]. destruct (Ascii.eqb a c) eqn:E; [done|]. intros H.
    rewrite append_cons. cbn [split_on]. by rewrite E, (IH H).
Qed.

(** Splitting a joined text at the separator gives the parts back, when
    there is a part and no part holds the separator. *)
Lemma split_on_join parts :
  parts ≠ [] →
  Forall (λ p, has_char LF p = false) parts →
  split_on LF (join nl parts) = parts.
Proof.
  intros Hne Hall. induction Hall as [|p parts Hp Hall IH]; [done|].
  rewrite join_cons. destruct parts as [|p' parts].
  - by apply split_on_whole.
  - change (p +:+ nl +:+ ?rest) with (p +:+ String LF rest).
    rewrite (split_on_first _ _ _ Hp). by rewrite IH.
Qed.

End Lines.

(** ** More on the audit loop *)

Section MoreLoop.

Variable drv : Driver.
Implicit Types (w : World drv) (check : Check) (checks catalog : list Check).
Implicit Types (results : list Result) (evs : list event).

(** X1. Split at the line breaks, the output cell of every Result of a run
    gives back the [str] of each fetched row, one line per row: a line break
    inside a fetched text or an error message never starts a new line.  A
    check without rows has an empty cell. *)
Theorem cell_lines_are_the_rows catalog w :
  ∃ results w',
    audit_loop drv catalog [] w = (Ok results, w') ∧
    ∀ item, item ∈ results →
      (r_output item = [] → output_cell item = "") ∧
      (r_output item ≠ [] →
         split_on LF (output_cell item) = map py_str (r_output item) ∧
         length (split_on LF (output_cell item)) = length (r_output item)).
Proof.
  destruct (audit_loop_total drv catalog w) as (results & w' & Hrun & Hall).
  exists results, w'. split; [apply (Hrun [])|].
  intros item Hitem.
  apply list_elem_of_lookup in Hitem as [i Hi].
  destruct (Forall2_lookup_r _ _ _ _ _ Hall Hi)
    as (check & _ & out & -> & Htup).
  split; [intros H; unfold output_cell; by rewrite H|].
  intros Hne. cbn [r_output result_of] in *.
  assert (split_on LF (output_cell (result_of check out)) = map py_str out)
    as Hsplit.
  { unfold output_cell. cbn [r_output result_of].
    apply split_on_join.
    - by destruct out.
    - apply Forall_fmap. eapply Forall_impl; [exact Htup|].
      intros [| | |vs] Hv; try discriminate Hv.
      apply (py_repr_one_line (PyTuple vs)). }
  split; [exact Hsplit|]. by rewrite Hsplit, length_map.
Qed.

(** X2. Running the loop over two catalogs put end to end is running it
    over the first and then, from the state that run left, over the second:
    the Results are those of the two runs, in that order. *)
Theorem audit_loop_concat pre post w :
  ∃ results1 w1 results2 w2,
    audit_loop drv pre [] w = (Ok results1, w1) ∧
    audit_loop drv post [] w1 = (Ok results2, w2) ∧
    audit_loop drv (pre ++ post) [] w = (Ok (results1 ++ results2), w2).
Proof.
  destruct (audit_loop_total drv pre w) as (results1 & w1 & Hpre & _).
  destruct (audit_loop_total drv post w1) as (results2 & w2 & Hpost & _).
  exists results1, w1, results2, w2. split; [apply (Hpre [])|].
  split; [apply (Hpost [])|].
  rewrite (audit_loop_app drv pre post [] w results1 w1 (Hpre [])).
  apply Hpost.
Qed.

(** One turn of the loop in any state: only query calls reach the driver. *)
Lemma check_output_quiet check w :
  ∃ output w' evs,
    check_output drv check w = (Ok output, w') ∧
    untouched w w' ∧
    w_trace w' = w_trace w ++ evs ∧
    Forall (λ ev, is_query_call ev = true) evs ∧
    (w_session w = None → w_session w' = None) ∧
    (is_Some (w_session w) → is_Some (w_session w')).
Proof.
  destruct (w_session w) as [s|] eqn:Hs.
  - destruct (check_output_frame drv check w s Hs)
      as (out & w' & s' & fetched & Hout & Hs' & Htr & Hf & Hun).
    exists out, w', (execute_of check :: fetched).
    split_and!; try done;
      try (by destruct Hf as [-> | ->]; repeat constructor);
      try (intros _; by rewrite Hs').
  - exists [error_row (exc_str not_connected)],
           (log drv (execute_of check) w), [execute_of check].
    unfold check_output, try_except, query_rows, bind, execute.
    rewrite Hs. split_and!; try done;
      try (by repeat constructor); try (by intros [? [=]]).
Qed.

(** X3. The loop only talks to the driver: in any state, closed session
    included, it leaves standard input and output, the terminal, the clock
    and the files as they were; it neither opens nor closes the session; the
    driver calls it adds are [execute] and [fetchall] calls only. *)
Theorem audit_loop_only_talks_to_driver checks : ∀ results w,
  ∃ out w' evs,
    audit_loop drv checks results w = (Ok out, w') ∧
    untouched w w' ∧
    w_trace w' = w_trace w ++ evs ∧
    Forall (λ ev, is_query_call ev = true) evs ∧
    (w_session w = None → w_session w' = None) ∧
    (is_Some (w_session w) → is_Some (w_session w')).
Proof.
  induction checks as [|check checks IH]; intros results w.
  - exists results, w, [].
    split_and!; try done; try apply untouched_refl;
      try (by rewrite app_nil_r).
  - destruct (check_output_quiet check w)
      as (out1 & w1 & evs1 & Hout & Hun1 & Htr1 & Hq1 & Hn1 & Hs1).
    destruct (IH (results ++ [result_of check out1]) w1)
      as (out & w' & evs & Hrun & Hun & Htr & Hq & Hn & Hs).
    exists out, w', (evs1 ++ evs). split_and!.
    + by rewrite (audit_loop_cons _ _ _ _ _ _ _ Hout).
    + by apply (untouched_trans drv w w1 w').
    + by rewrite Htr, Htr1, <- app_assoc.
    + by apply Forall_app.
    + auto.
    + auto.
Qed.

(** One turn on an open session, against what the driver says of it. *)
Lemma check_output_turn check w s :
  w_session w = Some s →
  ∃ output w',
    check_output drv check w = (Ok output, w') ∧
    w_session w' = Some (session_after drv s check) ∧
    w_trace w' = w_trace w ++ calls_of drv s check ∧
    ∀ e, snd (cursor_execute drv s (c_query check)) = Some e →
         output = [error_row (exc_str e)].
Proof.
  intros Hs.
  unfold check_output, try_except, query_rows, bind, execute, fetchall,
    session_after, calls_of.
  rewrite Hs.
  destruct (cursor_execute drv s (c_query check)) as [s1 [e|]]; simpl.
  - do 2 eexists. split; [reflexivity|]. simpl.
    split_and!; try done. by intros e' [= <-].
  - destruct (cursor_fetchall drv s1) as [s2 [e|rows]]; simpl;
      do 2 eexists; (split; [reflexivity|]); simpl;
      rewrite <- app_assoc; by split_and!.
Qed.

(** X4. On an open session the calls the loop makes are, check by check and
    in catalog order, one [execute] followed by a [fetchall] exactly when
    that [execute] returned: a check whose [execute] raised is not fetched
    from, and its output is the error row of that very exception. *)
Theorem fetchall_only_after_execute_returned checks : ∀ w s,
  w_session w = Some s →
  ∃ results w',
    audit_loop drv checks [] w = (Ok results, w') ∧
    length results = length checks ∧
    w_trace w' = w_trace w ++ expected_calls drv checks s ∧
    ∀ i check s_i,
      checks !! i = Some check →
      sessions_before drv checks s !! i = Some s_i →
      (snd (cursor_execute drv s_i (c_query check)) = None →
       calls_of drv s_i check = [EvExecute (c_query check); EvFetchall]) ∧
      (∀ e, snd (cursor_execute drv s_i (c_query check)) = Some e →
            calls_of drv s_i check = [EvExecute (c_query check)] ∧
            ∃ item, results !! i = Some item ∧
                    r_output item = [error_row (exc_str e)]).
Proof.
  induction checks as [|check checks IH]; intros w s Hs.
  - exists [], w. split_and!; try done; try (by rewrite app_nil_r).
  - destruct (check_output_turn check w s Hs)
      as (out & w1 & Hout & Hs1 & Htr1 & Herr).
    destruct (IH w1 _ Hs1) as (results & w' & Hrun & Hlen & Htr & Hrows).
    exists (result_of check out :: results), w'.
    split_and!.
    + rewrite (audit_loop_cons _ _ _ _ _ _ _ Hout).
      by rewrite (audit_loop_shift _ _ _ _ _ _ Hrun).
    + simpl. by rewrite Hlen.
    + rewrite Htr, Htr1, <- app_assoc. reflexivity.
    + intros [|i] check' s_i Hcheck Hsi; simpl in Hcheck, Hsi.
      * injection Hcheck as <-. injection Hsi as <-.
        unfold calls_of.
        destruct (cursor_execute drv s (c_query check)) as [s1 [e|]] eqn:E;
          simpl; split; try done.
        -- intros e' [= <-]. split; [done|].
           exists (result_of check out). split; [done|].
           simpl. by apply Herr.
      * destruct (Hrows i check' s_i Hcheck Hsi) as [Hret Hraised].
        split; [exact Hret|]. intros e He.
        destruct (Hraised e He) as (Hcalls & item & Hitem & Hrow).
        split; [exact Hcalls|]. by exists item.
Qed.

End MoreLoop.

(** ** More on a run of the script *)

Section MoreRun.

Variable drv : Driver.
Implicit Types (w : World drv) (check : Check) (checks catalog : list Check).
Implicit Types (results : list Result) (evs : list event).

Lemma stdin_cases w :
  length (w_stdin w) < 5 ∨
  ∃ host port_in service user password rest,
    w_stdin w = host :: port_in :: service :: user :: password :: rest.
Proof.
  destruct (w_stdin w) as [|a [|b [|c [|d [|e rest]]]]]; simpl;
    try (left; lia).
  right. by exists a, b, c, d, e, rest.
Qed.

(** With fewer than five answers a prompt meets the end of the input: one
    of [input], or, at four answers, that of [getpass]. *)
Lemma script_eof catalog w :
  length (w_stdin w) < 5 →
  ∃ text w',
    script drv catalog w = (Raise (Exc (OtherError text)), w') ∧
    (length (w_stdin w) < 4 → text = "EOF when reading a line") ∧
    (length (w_stdin w) = 4 → text = "") ∧
    w_trace w' = w_trace w ∧ w_fs w' = w_fs w ∧
    w_session w' = w_session w ∧ w_ticks w' = w_ticks w.
Proof.
  destruct w as [stdin out tty clock ticks fs sess trace prompts]. simpl.
  intros Hlen.
  destruct stdin as [|a [|b [|c [|d [|e rest]]]]]; simpl in Hlen;
    try lia;
    unfold script, bind, print, input, getpass; simpl;
    do 2 eexists; (split; [reflexivity|]);
    split_and!; try done; simpl; lia.
Qed.

(** The connection is refused. *)
Lemma script_refused catalog w host port_in service user password rest msg :
  w_stdin w = host :: port_in :: service :: user :: password :: rest →
  db_connect drv user password (mkDsn host (default_port port_in) service)
    = inl msg →
  ∃ w',
    script drv catalog w = (Raise (SystemExit 1), w') ∧
    w_fs w' = w_fs w ∧
    w_trace w' =
      w_trace w ++
      [EvConnect user password (mkDsn host (default_port port_in) service)].
Proof.
  intros Hin Hconn.
  destruct w as [stdin out tty clock ticks fs sess trace].
  simpl in Hin. subst stdin.
  unfold script, bind, print, input, getpass, try_except_oracle, connect,
    exit, raise.
  simpl. rewrite Hconn. simpl.
  eexists. split; [reflexivity|]. done.
Qed.

(** The connection opens: the state in which the report step starts. *)
Lemma script_connected_state catalog w host port_in service user password
    rest s :
  w_stdin w = host :: port_in :: service :: user :: password :: rest →
  db_connect drv user password (mkDsn host (default_port port_in) service)
    = inr s →
  ∃ results w2 evs,
    script drv catalog w = write_report drv results w2 ∧
    length results = length catalog ∧
    w_trace w2 =
      w_trace w ++
      [EvConnect user password (mkDsn host (default_port port_in) service);
       EvCursor] ++ evs ++ [EvCursorClose; EvConnectionClose] ∧
    List.filter is_execute evs = map execute_of catalog ∧
    w_fs w2 = w_fs w ∧ w_clock w2 = w_clock w ∧ w_ticks w2 = w_ticks w ∧
    w_stdin w2 = rest ∧
    w_stdout w2 =
      w_stdout w ++
      ["🔐 Oracle Database CIS Audit (Python version)" +:+ nl;
       "🧪 Connecting to Oracle..." +:+ nl; "✅ Connected." +:+ nl] ∧
    w_prompts w2 =
      w_prompts w ++
      ["Enter Oracle Host: "; "Enter Port [default: 1521]: ";
       "Enter Service Name/SID: "; "Enter Read-Only Username: "] ∧
    w_tty w2 = w_tty w ++ ["Enter password for " +:+ user +:+ ": "; nl] ∧
    w_session w2 = None ∧
    List.filter is_connection_close evs = [] ∧
    Forall (λ ev, is_query_call ev = true) evs.
Proof.
  intros Hin Hconn.
  destruct w as [stdin out tty clock ticks fs sess trace].
  simpl in Hin. subst stdin.
  unfold script, bind, print, input, getpass, try_except_oracle, connect.
  simpl. rewrite Hconn. simpl.
  match goal with
  | |- context [audit_loop drv catalog [] ?w1] =>
      destruct (audit_loop_frame drv catalog w1 s eq_refl)
        as (results & w2 & s' & evs & Hrun & Hlen & Hs' & Htr & Hex & Hcl & Hun
            & Hq);
      rewrite (Hrun [])
  end.
  simpl. unfold cursor_close, connection_close. rewrite Hs'. simpl. rewrite Hs'.
  destruct Hun as (Hstdin & Hout & Htty & Hclock & Hticks & Hfs & Hpr).
  destruct w2 as [stdin2 out2 tty2 clock2 ticks2 fs2 sess2 trace2].
  simpl in *. subst.
  eexists results, _, evs. split; [reflexivity|]. simpl.
  split_and!; try done; by rewrite <- !app_assoc.
Qed.

(** The report step ends normally or with an [Exception], never with an
    exit. *)
Lemma write_report_outcomes results w o w' :
  write_report drv results w = (o, w') →
  o = Ok tt ∨ ∃ e, o = Raise (Exc e).
Proof.
  unfold write_report, bind, makedirs, now, open_w, file_write, print.
  destruct (w_fs w !! report_dir) as [[|content]|]; simpl;
    try (intros [= <- <-]; by eauto);
    match goal with
    | |- context [?fs !! report_path ?ts] =>
        destruct (fs !! report_path ts) as [[|c]|]
    end; simpl; intros [= <- <-]; by eauto.
Qed.

(** What the report step does to the files, whatever its outcome. *)
Lemma write_report_files results w o w' :
  write_report drv results w = (o, w') →
  ∀ p, p ≠ report_dir →
       p ≠ report_path (strftime_stamp (w_clock w (w_ticks w))) →
       w_fs w' !! p = w_fs w !! p.
Proof.
  unfold write_report, bind, makedirs, now, open_w, file_write, print.
  destruct (w_fs w !! report_dir) as [[|content]|]; simpl;
    try (by intros [= <- <-]);
    match goal with
    | |- context [?fs !! report_path ?ts] =>
        destruct (fs !! report_path ts) as [[|c]|]
    end; simpl; intros [= <- <-] p Hdir Hpath; simpl;
    by rewrite ?lookup_insert_ne.
Qed.

(** X5. When fewer than five answers can be read, the script stops at a
    prompt with [EOFError], which nothing catches: the one of [input], with
    its text, when fewer than four answers came, the bare one of [getpass],
    with no text, when the password is missing.  The exit status is 1, the
    driver was never called, no file was touched and the clock was not
    read. *)
Theorem script_stops_at_end_of_input catalog w :
  length (w_stdin w) < 5 →
  ∃ text w',
    script drv catalog w = (Raise (Exc (OtherError text)), w') ∧
    (length (w_stdin w) < 4 → text = "EOF when reading a line") ∧
    (length (w_stdin w) = 4 → text = "") ∧
    exit_status (script drv catalog w).1 = 1%Z ∧
    w_trace w' = w_trace w ∧ w_fs w' = w_fs w ∧
    w_session w' = w_session w ∧ w_ticks w' = w_ticks w.
Proof.
  intros Hlen.
  destruct (script_eof catalog w Hlen)
    as (text & w' & Hrun & Hlt & Heq & Htr & Hfs & Hs & Ht).
  exists text, w'. rewrite Hrun. by split_and!.
Qed.

(** X6. Whatever is typed, whatever the driver and the files do, the exit
    status of the script is 0 or 1; and it is 0 only if the report named
    after the first reading of the clock is on disk, holding the rendering
    of one Result per check dated by the second reading. *)
Theorem script_exit_status_0_or_1 catalog w :
  (exit_status (script drv catalog w).1 = 0%Z ∨
   exit_status (script drv catalog w).1 = 1%Z) ∧
  (exit_status (script drv catalog w).1 = 0%Z →
   ∃ results,
     length results = length catalog ∧
     w_fs (script drv catalog w).2
       !! report_path (strftime_stamp (w_clock w (w_ticks w))) =
       Some (File (render (strftime_date (w_clock w (S (w_ticks w))))
                     results))).
Proof.
  destruct (stdin_cases w)
    as [Hlen|(host & port_in & service & user & password & rest & Hin)].
  { destruct (script_eof catalog w Hlen) as (text & w' & -> & _).
    split; [by right|]. simpl. discriminate. }
  destruct (db_connect drv user password
              (mkDsn host (default_port port_in) service))
    as [msg|s] eqn:Hconn.
  { destruct (script_refused catalog w _ _ _ _ _ _ _ Hin Hconn)
      as (w' & -> & _).
    split; [by right|]. simpl. discriminate. }
  destruct (script_connected_state catalog w _ _ _ _ _ _ s Hin Hconn)
    as (results & w2 & evs & -> & Hlen & _ & _ & Hfs & Hcl & Hti & _).
  destruct (write_report drv results w2) as [o w'] eqn:Hw.
  destruct (write_report_outcomes results w2 o w' Hw) as [-> | [e ->]].
  - split; [by left|]. intros _. exists results. split; [done|].
    simpl. rewrite <- Hcl, <- Hti. by apply write_report_content.
  - split; [by right|]. simpl. discriminate.
Qed.

(** The driver calls of any run of the script: the statements executed are
    none at all or those of the catalog. *)
Lemma script_trace catalog w :
  ∃ evs,
    w_trace (script drv catalog w).2 = w_trace w ++ evs ∧
    (List.filter is_execute evs = [] ∨
     List.filter is_execute evs = map execute_of catalog).
Proof.
  destruct (stdin_cases w)
    as [Hlen|(host & port_in & service & user & password & rest & Hin)].
  { destruct (script_eof catalog w Hlen) as (text & w' & -> & _ & _ & Htr & _).
    exists []. simpl. rewrite Htr, app_nil_r. by split; [|left]. }
  destruct (db_connect drv user password
              (mkDsn host (default_port port_in) service))
    as [msg|s] eqn:Hconn.
  { destruct (script_refused catalog w _ _ _ _ _ _ _ Hin Hconn)
      as (w' & -> & _ & Htr).
    eexists. simpl. split; [exact Htr|]. by left. }
  destruct (script_connected_state catalog w _ _ _ _ _ _ s Hin Hconn)
    as (results & w2 & evs & -> & _ & Htr & Hex & _).
  destruct (write_report drv results w2) as [o w'] eqn:Hw.
  apply write_report_frame in Hw as [Hw _].
  eexists. simpl. rewrite Hw. split; [exact Htr|]. right.
  simpl. rewrite List.filter_app, Hex. simpl. by rewrite app_nil_r.
Qed.

(** X7. The script as shipped is read-only towards the database: in any
    run, every statement handed to [execute] is one of the five queries of
    [cis_checks], each a [SELECT], and there are at most five such calls. *)
Theorem main_executes_only_catalog_selects w :
  ∃ evs,
    w_trace (main drv w).2 = w_trace w ++ evs ∧
    length (List.filter is_execute evs) ≤ 5 ∧
    ∀ query, EvExecute query ∈ evs →
      query ∈ map c_query cis_checks ∧ starts_with "SELECT " query = true.
Proof.
  destruct (script_trace cis_checks w) as (evs & Htr & Hex).
  exists evs. split; [exact Htr|]. split.
  - destruct Hex as [-> | ->]; simpl; lia.
  - intros query Hq.
    assert (EvExecute query ∈ List.filter is_execute evs) as Hin.
    { apply list_elem_of_In, List.filter_In. split; [|done].
      by apply list_elem_of_In. }
    destruct Hex as [Hex | Hex]; rewrite Hex in Hin.
    + by apply elem_of_nil in Hin.
    + apply list_elem_of_fmap in Hin as (check & [= ->] & Hcheck).
      split; [by apply list_elem_of_fmap_2|].
      unfold cis_checks in Hcheck.
      repeat (apply elem_of_cons in Hcheck as [-> | Hcheck];
              [reflexivity|]).
      by apply elem_of_nil in Hcheck.
Qed.

(** X8. On a run that connects and ends normally, [print] writes the
    banner, the two progress lines and the name of the report and nothing
    else; [input] shows its four prompts; [getpass] writes to the terminal
    the password prompt naming the user and, once the password is typed, a
    line break.  Neither the password nor anything fetched from the database
    is written to any of them. *)
Theorem script_prints_no_data catalog w host port_in service user password
    rest s w' :
  w_stdin w = host :: port_in :: service :: user :: password :: rest →
  db_connect drv user password (mkDsn host (default_port port_in) service)
    = inr s →
  script drv catalog w = (Ok tt, w') →
  w_stdout w' =
    w_stdout w ++
    ["🔐 Oracle Database CIS Audit (Python version)" +:+ nl;
     "🧪 Connecting to Oracle..." +:+ nl; "✅ Connected." +:+ nl;
     ("📄 Report saved to: " +:+
      report_path (strftime_stamp (w_clock w (w_ticks w)))) +:+ nl] ∧
  w_prompts w' =
    w_prompts w ++
    ["Enter Oracle Host: "; "Enter Port [default: 1521]: ";
     "Enter Service Name/SID: "; "Enter Read-Only Username: "] ∧
  w_tty w' = w_tty w ++ ["Enter password for " +:+ user +:+ ": "; nl] ∧
  w_stdin w' = rest.
Proof.
  intros Hin Hconn.
  destruct (script_connected_state catalog w _ _ _ _ _ _ s Hin Hconn)
    as (results & w2 & evs & -> & _ & _ & _ & Hfs & Hcl & Hti & Hstdin
        & Hout & Hpr & Htty & _).
  rewrite <- Hcl, <- Hti.
  unfold write_report, bind, makedirs, now, open_w, file_write, print.
  destruct (w_fs w2 !! report_dir) as [[|content]|]; simpl;
    try (by intros [=]);
    match goal with
    | |- context [?fs !! report_path ?ts] =>
        destruct (fs !! report_path ts) as [[|c]|]
    end; simpl; intros [= <-]; simpl;
    by rewrite Hout, Hpr, Htty, Hstdin, <- app_assoc.
Qed.

(** X9. When the report step returns, the report file holds the rendering
    and nothing else, whatever was at that name before: a report of the same
    second is replaced, not appended to.  [cis_html_reports] is a directory,
    every other path is as it was, and the clock was read twice. *)
Theorem write_report_replaces results w w' :
  write_report drv results w = (Ok tt, w') →
  w_fs w' !! report_path (strftime_stamp (w_clock w (w_ticks w))) =
    Some (File (render (strftime_date (w_clock w (S (w_ticks w)))) results)) ∧
  w_fs w' !! report_dir = Some Dir ∧
  (∀ p, p ≠ report_dir →
        p ≠ report_path (strftime_stamp (w_clock w (w_ticks w))) →
        w_fs w' !! p = w_fs w !! p) ∧
  w_ticks w' = S (S (w_ticks w)) ∧
  w_trace w' = w_trace w.
Proof.
  intros Hw. split; [by apply write_report_content|].
  split; [|split; [by apply (write_report_files results w (Ok tt))|]].
  - revert Hw.
    unfold write_report, bind, makedirs, now, open_w, file_write, print.
    destruct (w_fs w !! report_dir) as [[|content]|] eqn:E; simpl;
      try (by intros [=]);
      match goal with
      | |- context [?fs !! report_path ?ts] =>
          destruct (fs !! report_path ts) as [[|c]|]
      end; simpl; intros [= <-]; simpl;
      rewrite !lookup_insert_ne by apply report_path_not_dir;
      by rewrite ?lookup_insert_eq.
  - split; [|by apply (write_report_frame drv results w (Ok tt))].
    revert Hw.
    unfold write_report, bind, makedirs, now, open_w, file_write, print.
    destruct (w_fs w !! report_dir) as [[|content]|]; simpl;
      try (by intros [=]);
      match goal with
      | |- context [?fs !! report_path ?ts] =>
          destruct (fs !! report_path ts) as [[|c]|]
      end; simpl; by intros [= <-].
Qed.

(** X10. When [cis_html_reports] names a file, a run that connects still
    runs every check and closes the connection, then fails in [makedirs]:
    the exit status is 1, no report is written and no file is changed. *)
Theorem report_dir_taken_by_a_file catalog w host port_in service user
    password rest s content :
  w_stdin w = host :: port_in :: service :: user :: password :: rest →
  db_connect drv user password (mkDsn host (default_port port_in) service)
    = inr s →
  w_fs w !! report_dir = Some (File content) →
  ∃ w' evs,
    script drv catalog w =
      (Raise (Exc (OtherError
         "[Errno 17] File exists: 'cis_html_reports'")), w') ∧
    exit_status (script drv catalog w).1 = 1%Z ∧
    w_fs w' = w_fs w ∧
    w_trace w' =
      w_trace w ++
      [EvConnect user password (mkDsn host (default_port port_in) service);
       EvCursor] ++ evs ++ [EvCursorClose; EvConnectionClose] ∧
    List.filter is_execute evs = map execute_of catalog.
Proof.
  intros Hin Hconn Hfile.
  destruct (script_connected_state catalog w _ _ _ _ _ _ s Hin Hconn)
    as (results & w2 & evs & Hscript & _ & Htr & Hex & Hfs & _).
  exists w2, evs. rewrite Hscript.
  assert (write_report drv results w2 =
          (Raise (Exc (OtherError
             "[Errno 17] File exists: 'cis_html_reports'")), w2)) as ->.
  { unfold write_report, bind, makedirs. by rewrite Hfs, Hfile. }
  by split_and!.
Qed.

(** X11. When the name of the report is taken by a directory, the report
    step fails in [open] after [makedirs] has run: [cis_html_reports] is a
    directory afterwards, created if it was missing, every other path is as
    it was, nothing is printed and the clock was read once. *)
Theorem report_name_taken_by_a_directory results w :
  (∀ content, w_fs w !! report_dir ≠ Some (File content)) →
  w_fs w !! report_path (strftime_stamp (w_clock w (w_ticks w))) = Some Dir →
  ∃ w',
    write_report drv results w =
      (Raise (Exc (OtherError
         ("[Errno 21] Is a directory: " +:+
          repr_str (report_path (strftime_stamp (w_clock w (w_ticks w))))))),
       w') ∧
    w_fs w' !! report_dir = Some Dir ∧
    (∀ p, p ≠ report_dir → w_fs w' !! p = w_fs w !! p) ∧
    w_stdout w' = w_stdout w ∧
    w_ticks w' = S (w_ticks w).
Proof.
  intros Hdir Hpath.
  unfold write_report, bind, makedirs, now, open_w.
  destruct (w_fs w !! report_dir) as [[|content]|] eqn:E; simpl.
  - rewrite Hpath. eexists. split; [reflexivity|]. by split_and!.
  - by destruct (Hdir content).
  - rewrite lookup_insert_ne by (symmetry; apply report_path_not_dir).
    rewrite Hpath. eexists. split; [reflexivity|]. simpl. split_and!.
    + by rewrite lookup_insert_eq.
    + intros p Hp. by rewrite lookup_insert_ne.
    + done.
    + done.
Qed.

(** X13. With five answers typed, the first thing asked of the driver is to
    connect with the answers as they were typed, empty ones included and
    nothing checked; only an empty port answer is replaced, by 1521, so the
    port handed over is never empty.  This holds whether or not the
    connection then opens. *)
Theorem connect_gets_the_answers_as_typed catalog w host port_in service user
    password rest :
  w_stdin w = host :: port_in :: service :: user :: password :: rest →
  ∃ port evs,
    w_trace (script drv catalog w).2 =
      w_trace w ++ EvConnect user password (mkDsn host port service) :: evs ∧
    (port_in = "" → port = "1521") ∧
    (port_in ≠ "" → port = port_in) ∧
    port ≠ "".
Proof.
  intros Hin. exists (default_port port_in).
  assert (∃ evs,
            w_trace (script drv catalog w).2 =
            w_trace w ++
            EvConnect user password
              (mkDsn host (default_port port_in) service) :: evs)
    as [evs Hevs].
  { destruct (db_connect drv user password
                (mkDsn host (default_port port_in) service))
      as [msg|s] eqn:Hconn.
    - destruct (script_refused catalog w _ _ _ _ _ _ _ Hin Hconn)
        as (w' & -> & _ & Htr). by exists [].
    - destruct (script_connected_state catalog w _ _ _ _ _ _ s Hin Hconn)
        as (results & w2 & evs & -> & _ & Htr & _).
      destruct (write_report drv results w2) as [o w'] eqn:Hw.
      apply write_report_frame in Hw as [Hw _].
      eexists. simpl. rewrite Hw. exact Htr. }
  exists evs. split; [exact Hevs|].
  unfold default_port. case_bool_decide; by split_and!.
Qed.

End MoreRun.

(** ** More on the written report *)

Section MoreReport.

Variable drv : Driver.
Implicit Types (w : World drv) (results : list Result).

(** Decimal numerals hold no [<]. *)
Lemma pretty_N_go_plain x : ∀ s, plain s → plain (pretty_N_go x s).
Proof.
  unfold plain.
  induction (N.lt_wf_0 x) as [x _ IH]; intros s Hs.
  assert (x = 0 ∨ 0 < x)%N as [->|Hpos] by lia.
  - by rewrite pretty_N_go_0.
  - rewrite pretty_N_go_step by done. apply IH.
    + by apply N.div_lt.
    + cbn [has_char]. rewrite Hs.
      unfold pretty_N_char. by repeat case_match.
Qed.

Lemma zero_padded_plain width n : plain (zero_padded width n).
Proof.
  unfold plain, zero_padded. rewrite has_char_app.
  assert (∀ k, has_char "<" (zeros k) = false) as Hz.
  { induction k as [|k IH]; [done|].
    change (zeros (S k)) with ("0" +:+ zeros k).
    by rewrite has_char_app, IH. }
  rewrite Hz. simpl.
  unfold pretty, pretty_nat, pretty, pretty_N. case_decide; [done|].
  by apply pretty_N_go_plain.
Qed.

(** So is the date text of any reading of the clock. *)
Lemma strftime_date_plain t : plain (strftime_date t).
Proof.
  unfold plain, strftime_date.
  rewrite !has_char_app.
  by rewrite !(zero_padded_plain _ _).
Qed.

(** X12. Read as text, a written report of N Results whose fields hold no
    [<] has exactly N places where a body row opens, whatever the clock
    showed; the header row and the style sheet add none. *)
Theorem written_report_has_one_row_tag_per_result results w w' :
  write_report drv results w = (Ok tt, w') →
  Forall plain_item results →
  ∃ content,
    w_fs w' !! report_path (strftime_stamp (w_clock w (w_ticks w)))
      = Some (File content) ∧
    count_starts body_row_tag content = length results.
Proof.
  intros Hw Hall. eexists. split; [by apply write_report_content|].
  apply count_body_rows; [apply strftime_date_plain|done].
Qed.

End MoreReport.

(** ** The further theorems at work on the small driver *)

(** A failing check, then one that succeeds: three calls, the first check
    is not fetched from. *)
Lemma fetchall_only_after_execute_returned_witness :
  w_session (demo_world [] (Some None)) = Some None ∧
  ∃ results w',
    audit_loop demo_driver [missing_check; dual_check "a" "b" "c"] []
      (demo_world [] (Some None)) = (Ok results, w') ∧
    length results = 2 ∧
    w_trace w' =
      w_trace (demo_world [] (Some None)) ++
      [EvExecute "SELECT * FROM missing"; EvExecute "SELECT 1 FROM DUAL";
       EvFetchall] ∧
    ∃ item, results !! 0 = Some item ∧
            r_output item = [error_row (exc_str ora_942)].
Proof.
  split; [reflexivity|].
  destruct (fetchall_only_after_execute_returned demo_driver
              [missing_check; dual_check "a" "b" "c"]
              (demo_world [] (Some None)) None eq_refl)
    as (results & w' & Hrun & Hlen & Htr & Hturns).
  exists results, w'. split; [exact Hrun|]. split; [exact Hlen|].
  split; [exact Htr|].
  destruct (Hturns 0 missing_check None eq_refl eq_refl) as [_ Hraised].
  destruct (Hraised ora_942 eq_refl) as (_ & item & Hitem & Hrow).
  by exists item.
Defined.

(** Two answers only, then four: the password is missing. *)
Lemma script_stops_at_end_of_input_witness :
  (length (w_stdin (demo_world ["db1"; ""] None)) < 5 ∧
   ∃ w',
     script demo_driver cis_checks (demo_world ["db1"; ""] None)
       = (Raise (Exc (OtherError "EOF when reading a line")), w') ∧
     exit_status (script demo_driver cis_checks
                    (demo_world ["db1"; ""] None)).1 = 1%Z ∧
     w_trace w' = w_trace (demo_world ["db1"; ""] None) ∧
     w_fs w' = w_fs (demo_world ["db1"; ""] None)) ∧
  (length (w_stdin (demo_world ["db1"; ""; "ORCL"; "auditor"] None)) < 5 ∧
   ∃ w',
     script demo_driver cis_checks
       (demo_world ["db1"; ""; "ORCL"; "auditor"] None)
       = (Raise (Exc (OtherError "")), w') ∧
     exit_status (script demo_driver cis_checks
                    (demo_world ["db1"; ""; "ORCL"; "auditor"] None)).1
       = 1%Z ∧
     w_trace w' = w_trace (demo_world ["db1"; ""; "ORCL"; "auditor"] None) ∧
     w_fs w' = w_fs (demo_world ["db1"; ""; "ORCL"; "auditor"] None)).
Proof.
  assert (length (w_stdin (demo_world ["db1"; ""] None)) < 5) as Hlen2
    by (simpl; lia).
  assert (length (w_stdin (demo_world ["db1"; ""; "ORCL"; "auditor"] None))
          < 5) as Hlen4 by (simpl; lia).
  split.
  - split; [exact Hlen2|].
    destruct (script_stops_at_end_of_input demo_driver cis_checks
                (demo_world ["db1"; ""] None) Hlen2)
      as (text & w' & Hrun & Hlt & _ & Hstatus & Htr & Hfs & _).
    assert (text = "EOF when reading a line") as Htext
      by (apply Hlt; simpl; lia).
    subst text. exists w'. by split_and!.
  - split; [exact Hlen4|].
    destruct (script_stops_at_end_of_input demo_driver cis_checks
                (demo_world ["db1"; ""; "ORCL"; "auditor"] None) Hlen4)
      as (text & w' & Hrun & _ & Heq & Hstatus & Htr & Hfs & _).
    assert (text = "") as Htext by (apply Heq; reflexivity).
    subst text. exists w'. by split_and!.
Defined.

(** A connected run over one check. *)
Lemma script_prints_no_data_witness :
  w_stdin (demo_world good_answers None)
    = "db1" :: "" :: "ORCL" :: "auditor" :: "secret" :: [] ∧
  db_connect demo_driver "auditor" "secret"
    (mkDsn "db1" (default_port "") "ORCL") = inr None ∧
  script demo_driver [missing_check] (demo_world good_answers None)
    = (Ok tt, (script demo_driver [missing_check]
                 (demo_world good_answers None)).2) ∧
  w_stdout (script demo_driver [missing_check]
              (demo_world good_answers None)).2 =
    w_stdout (demo_world good_answers None) ++
    ["🔐 Oracle Database CIS Audit (Python version)" +:+ nl;
     "🧪 Connecting to Oracle..." +:+ nl; "✅ Connected." +:+ nl;
     ("📄 Report saved to: " +:+ report_path "20240517_093005") +:+ nl] ∧
  w_prompts (script demo_driver [missing_check]
               (demo_world good_answers None)).2 =
    w_prompts (demo_world good_answers None) ++
    ["Enter Oracle Host: "; "Enter Port [default: 1521]: ";
     "Enter Service Name/SID: "; "Enter Read-Only Username: "] ∧
  w_tty (script demo_driver [missing_check]
           (demo_world good_answers None)).2 =
    w_tty (demo_world good_answers None) ++
    ["Enter password for " +:+ "auditor" +:+ ": "; nl] ∧
  w_stdin (script demo_driver [missing_check]
             (demo_world good_answers None)).2 = [].
Proof.
  assert (script demo_driver [missing_check] (demo_world good_answers None)
          = (Ok tt, (script demo_driver [missing_check]
                       (demo_world good_answers None)).2)) as Hrun
    by (vm_compute; reflexivity).
  split; [reflexivity|]. split; [reflexivity|]. split; [exact Hrun|].
  exact (script_prints_no_data demo_driver [missing_check]
           (demo_world good_answers None)
           "db1" "" "ORCL" "auditor" "secret" [] None
           (script demo_driver [missing_check]
              (demo_world good_answers None)).2
           eq_refl eq_refl Hrun).
Defined.

(** An older report of the same second is in the way. *)
Lemma write_report_replaces_witness :
  write_report demo_driver [markup_result]
    (demo_world_with {[report_path "20240517_093005" := File "old"]} [] None)
    = (Ok tt,
       (write_report demo_driver [markup_result]
          (demo_world_with {[report_path "20240517_093005" := File "old"]}
             [] None)).2) ∧
  w_fs (write_report demo_driver [markup_result]
          (demo_world_with {[report_path "20240517_093005" := File "old"]}
             [] None)).2
    !! report_path "20240517_093005" =
    Some (File (render "2024-05-17 09:30:05" [markup_result])) ∧
  w_fs (write_report demo_driver [markup_result]
          (demo_world_with {[report_path "20240517_093005" := File "old"]}
             [] None)).2
    !! report_dir = Some Dir.
Proof.
  assert (write_report demo_driver [markup_result]
            (demo_world_with
               {[report_path "20240517_093005" := File "old"]} [] None)
          = (Ok tt,
             (write_report demo_driver [markup_result]
                (demo_world_with
                   {[report_path "20240517_093005" := File "old"]}
                   [] None)).2)) as Hrun
    by (vm_compute; reflexivity).
  split; [exact Hrun|].
  destruct (write_report_replaces demo_driver [markup_result] _ _ Hrun)
    as (Hfile & Hdir & _).
  split; [exact Hfile|exact Hdir].
Defined.

(** A file named like the report directory. *)
Lemma report_dir_taken_by_a_file_witness :
  w_stdin (demo_world_with {[report_dir := File "notes"]} good_answers None)
    = "db1" :: "" :: "ORCL" :: "auditor" :: "secret" :: [] ∧
  db_connect demo_driver "auditor" "secret"
    (mkDsn "db1" (default_port "") "ORCL") = inr None ∧
  w_fs (demo_world_with {[report_dir := File "notes"]} good_answers None)
    !! report_dir = Some (File "notes") ∧
  ∃ w' evs,
    script demo_driver [missing_check]
      (demo_world_with {[report_dir := File "notes"]} good_answers None) =
      (Raise (Exc (OtherError
         "[Errno 17] File exists: 'cis_html_reports'")), w') ∧
    exit_status
      (script demo_driver [missing_check]
         (demo_world_with {[report_dir := File "notes"]} good_answers None)).1
      = 1%Z ∧
    w_fs w' =
      w_fs (demo_world_with {[report_dir := File "notes"]} good_answers None) ∧
    w_trace w' =
      w_trace
        (demo_world_with {[report_dir := File "notes"]} good_answers None) ++
      [EvConnect "auditor" "secret" (mkDsn "db1" (default_port "") "ORCL");
       EvCursor] ++ evs ++ [EvCursorClose; EvConnectionClose] ∧
    List.filter is_execute evs = map execute_of [missing_check].
Proof.
  split; [reflexivity|]. split; [reflexivity|]. split; [reflexivity|].
  apply (report_dir_taken_by_a_file demo_driver [missing_check]
           (demo_world_with {[report_dir := File "notes"]} good_answers None)
           "db1" "" "ORCL" "auditor" "secret" [] None "notes");
    reflexivity.
Defined.

(** A directory named like the report. *)
Lemma report_name_taken_by_a_directory_witness :
  (∀ content,
     w_fs (demo_world_with {[report_path "20240517_093005" := Dir]} [] None)
       !! report_dir ≠ Some (File content)) ∧
  w_fs (demo_world_with {[report_path "20240517_093005" := Dir]} [] None)
    !! report_path "20240517_093005" = Some Dir ∧
  ∃ w',
    write_report demo_driver [markup_result]
      (demo_world_with {[report_path "20240517_093005" := Dir]} [] None) =
      (Raise (Exc (OtherError
         ("[Errno 21] Is a directory: " +:+
          repr_str (report_path "20240517_093005")))), w') ∧
    w_fs w' !! report_dir = Some Dir ∧
    (∀ p, p ≠ report_dir →
          w_fs w' !! p =
          w_fs (demo_world_with {[report_path "20240517_093005" := Dir]}
                  [] None) !! p) ∧
    w_stdout w' =
      w_stdout (demo_world_with {[report_path "20240517_093005" := Dir]}
                  [] None) ∧
    w_ticks w' =
      S (w_ticks (demo_world_with {[report_path "20240517_093005" := Dir]}
                    [] None)).
Proof.
  assert (∀ content,
            w_fs (demo_world_with {[report_path "20240517_093005" := Dir]}
                    [] None) !! report_dir ≠ Some (File content)) as Hdir
    by (intros content; vm_compute; discriminate).
  split; [exact Hdir|]. split; [reflexivity|].
  exact (report_name_taken_by_a_directory demo_driver [markup_result]
           (demo_world_with {[report_path "20240517_093005" := Dir]} [] None)
           Hdir eq_refl).
Defined.

(** One Result of plain fields with two rows: one row tag. *)
Lemma written_report_has_one_row_tag_per_result_witness :
  write_report demo_driver [two_row_result] (demo_world [] None)
    = (Ok tt, (write_report demo_driver [two_row_result]
                 (demo_world [] None)).2) ∧
  Forall plain_item [two_row_result] ∧
  ∃ content,
    w_fs (write_report demo_driver [two_row_result] (demo_world [] None)).2
      !! report_path "20240517_093005" = Some (File content) ∧
    count_starts body_row_tag content = 1.
Proof.
  assert (Forall plain_item [two_row_result]) as Hplain.
  { repeat constructor. }
  assert (write_report demo_driver [two_row_result] (demo_world [] None)
          = (Ok tt, (write_report demo_driver [two_row_result]
                       (demo_world [] None)).2)) as Hrun
    by (vm_compute; reflexivity).
  split; [exact Hrun|]. split; [exact Hplain|].
  exact (written_report_has_one_row_tag_per_result demo_driver
           [two_row_result] (demo_world [] None) _ Hrun Hplain).
Defined.

(** The port left empty. *)
Lemma connect_gets_the_answers_as_typed_witness :
  w_stdin (demo_world good_answers None)
    = "db1" :: "" :: "ORCL" :: "auditor" :: "secret" :: [] ∧
  ∃ port evs,
    w_trace (script demo_driver [missing_check]
               (demo_world good_answers None)).2 =
      w_trace (demo_world good_answers None) ++
      EvConnect "auditor" "secret" (mkDsn "db1" port "ORCL") :: evs ∧
    ("" = "" → port = "1521") ∧
    ("" ≠ "" → port = "") ∧
    port ≠ "".
Proof.
  split; [reflexivity|].
  exact (connect_gets_the_answers_as_typed demo_driver [missing_check]
           (demo_world good_answers None)
           "db1" "" "ORCL" "auditor" "secret" [] eq_refl).
Defined.
